(** * mpbridge: the session core of the MicroPython REPL bridge

    A shallow embedding of [src/mpbridge.py]: the Windows PTY reader, the
    [VirtualSerialPort] facade, the soft-reboot procedure of
    [BaseRedirector] and the accept loop with its connection guard.

    Conventions.
    - Byte strings are [list byte]; Python's [bytes] operations used by the
      source ([in], [replace], [rstrip], [endswith], slicing) are defined
      below with Python's semantics.
    - Durations are integers in milliseconds (the source writes seconds as
      float literals: 0.001, 0.01, 0.05, 0.1).
    - Python objects with mutable fields are records; methods are state
      transformers in the monad [M], which keeps the mutated state when an
      exception propagates, as Python does. *)

From Stdlib Require Import String.
From Stdlib Require Import List ZArith Bool Lia.
From Stdlib Require Import Strings.Byte.
From Stdlib Require Import Permutation.
Import ListNotations.

Set Implicit Arguments.
Local Open Scope Z_scope.

(* ===================================================================== *)
(** ** Byte strings with Python's operations *)
(* ===================================================================== *)

Definition bytes := list byte.

Definition b (s : string) : bytes := list_byte_of_string s.

Definition CR : byte := x0d.
Definition LF : byte := x0a.
Definition ESC : byte := x1b.

Definition bytes_eqb (x y : bytes) : bool :=
  if list_eq_dec Byte.byte_eq_dec x y then true else false.

(** [data.startswith(prefix)] *)
Fixpoint startswith (prefix data : bytes) : bool :=
  match prefix, data with
  | [], _ => true
  | _ :: _, [] => false
  | p :: prefix', d :: data' => Byte.eqb p d && startswith prefix' data'
  end.

(** [needle in data] for byte strings: some suffix of [data] starts with
    [needle]. *)
Fixpoint contains (needle data : bytes) : bool :=
  startswith needle data ||
  match data with
  | [] => false
  | _ :: data' => contains needle data'
  end.

(** [data.endswith(suffix)] *)
Definition endswith (suffix data : bytes) : bool :=
  startswith (rev suffix) (rev data).

(** The bytes Python's [bytes.rstrip()] removes: ASCII whitespace
    (space, TAB, LF, VT, FF, CR). *)
Definition is_py_space (c : byte) : bool :=
  match c with
  | x20 | x09 | x0a | x0b | x0c | x0d => true
  | _ => false
  end.

Fixpoint lstrip (data : bytes) : bytes :=
  match data with
  | [] => []
  | c :: data' => if is_py_space c then lstrip data' else data
  end.

(** [data.rstrip()] *)
Definition rstrip (data : bytes) : bytes := rev (lstrip (rev data)).

(** [data.replace(old, new)] for a non-empty [old]: one pass from the left,
    occurrences taken greedily and without overlap.  [skip] counts the bytes
    of a matched occurrence that are still to be dropped. *)
Fixpoint replace_from (skip : nat) (old new data : bytes) : bytes :=
  match data with
  | [] => []
  | c :: data' =>
      match skip with
      | S k => replace_from k old new data'
      | O =>
          if startswith old data
          then new ++ replace_from (Nat.pred (length old)) old new data'
          else c :: replace_from 0 old new data'
      end
  end.

Definition replace (old new data : bytes) : bytes := replace_from 0 old new data.

(** Python's slices [data[:n]] and [data[n:]] for an integer [n]; a negative
    [n] counts from the end. *)
Definition slice_to (data : bytes) (n : Z) : bytes :=
  if 0 <=? n then firstn (Z.to_nat n) data
  else firstn (length data - Z.to_nat (- n)) data.

Definition slice_from (data : bytes) (n : Z) : bytes :=
  if 0 <=? n then skipn (Z.to_nat n) data
  else skipn (length data - Z.to_nat (- n)) data.

(* ===================================================================== *)
(** ** Module constants (mpbridge.py lines 106-128) *)
(* ===================================================================== *)

Definition CTRL_A : bytes := [x01].
Definition CTRL_B : bytes := [x02].
Definition CTRL_C : bytes := [x03].
Definition CTRL_D : bytes := [x04].

Definition MPREMOTE_SOFT_REBOOT : bytes := b "soft reboot" ++ [CR; LF].

Definition MPREMOTE_RAW_REPL_SOFT_REBOOT : bytes :=
  b "OK" ++ [CR; LF] ++ b "MPY: soft reboot" ++ [CR; LF]
    ++ b "raw REPL; CTRL-B to exit" ++ [CR; LF] ++ b ">".

Definition RAW_REPL_PROMPT : bytes := b "raw REPL; CTRL-B to exit".
Definition FRIENDLY_PROMPT : bytes := b ">>>".

Definition MP_BRIDGE_BANNER_READ_TIMEOUT : Z := 50.
Definition MP_BRIDGE_PROCESS_RESTART_DELAY : Z := 10.
Definition MP_BRIDGE_READ_TIMEOUT : Z := 10.
Definition MP_BRIDGE_READ_BUFFER_SIZE : Z := 4096.
Definition MP_BRIDGE_WINDOWS_RESTART_DELAY : Z := 100.
Definition MP_BRIDGE_DRAIN_TIMEOUT : Z := 50.

(* ===================================================================== *)
(** ** Exceptions and the state monad of methods *)
(* ===================================================================== *)

(** The exception classes the handlers of the source tell apart:
    [OSError] (of which [socket.error] is an alias), [ValueError], and any
    other [Exception]. *)
Inductive exn : Type :=
| OSError
| ValueError
| OtherException.

Inductive result (A : Type) : Type :=
| Ok (a : A)
| Raise (e : exn).

Arguments Ok {A} a.
Arguments Raise {A} e.

(** A method on an object of type [S]: it returns or raises, and leaves the
    object in a new state either way. *)
Definition M (S A : Type) : Type := S -> result A * S.

Definition ret {S A} (a : A) : M S A := fun s => (Ok a, s).

Definition raise {S A} (e : exn) : M S A := fun s => (Raise e, s).

Definition bind {S A B} (m : M S A) (k : A -> M S B) : M S B :=
  fun s =>
    match m s with
    | (Ok a, s') => k a s'
    | (Raise e, s') => (Raise e, s')
    end.

Definition get {S} : M S S := fun s => (Ok s, s).

Definition gets {S A} (f : S -> A) : M S A := fun s => (Ok (f s), s).

Definition modify {S} (f : S -> S) : M S unit := fun s => (Ok tt, f s).

(** [try: m  except Exception: h] *)
Definition try_except {S A} (m : M S A) (h : exn -> M S A) : M S A :=
  fun s =>
    match m s with
    | (Ok a, s') => (Ok a, s')
    | (Raise e, s') => h e s'
    end.

(** [try: m  except socket.error: h]; other exceptions propagate. *)
Definition try_except_socket {S A} (m : M S A) (h : M S A) : M S A :=
  try_except m (fun e => match e with OSError => h | _ => raise e end).

(** [try: m  except (OSError, ValueError): h]; other exceptions propagate. *)
Definition try_except_os_value {S A} (m : M S A) (h : M S A) : M S A :=
  try_except m
    (fun e => match e with OSError | ValueError => h | OtherException => raise e end).

(** [try: m  finally: f] *)
Definition try_finally {S A} (m : M S A) (f : S -> S) : M S A :=
  fun s => let (r, s') := m s in (r, f s').

(** Run a method of a component object held in a field of [S]. *)
Definition zoom {S T A} (proj : S -> T) (upd : T -> S -> S) (m : M T A) : M S A :=
  fun s => let (r, t') := m (proj s) in (r, upd t' s).

Declare Scope mon_scope.
Delimit Scope mon_scope with mon.
Notation "x <- m ;; k" := (bind m (fun x => k))
  (at level 100, m at next level, right associativity) : mon_scope.
Notation "m ;;; k" := (bind m (fun _ => k))
  (at level 100, right associativity) : mon_scope.
Local Open Scope mon_scope.

(** [time.sleep(ms)]: only lets time pass; the scripted devices below
    advance per call, so a sleep changes no state. *)
Definition sleep {S} (ms : Z) : M S unit := ret tt.

(** Python truthiness of a byte string: [if data:]. *)
Definition nonempty (data : bytes) : bool :=
  match data with [] => false | _ :: _ => true end.

(** Next outcome of a scripted external device: the head of its script, or
    [quiet] once the script is used up. *)
Definition next_outcome {A} (quiet : A) (script : list A) : A * list A :=
  match script with
  | [] => (quiet, [])
  | x :: script' => (x, script')
  end.

(* ===================================================================== *)
(** ** BasePTYProcess (mpbridge.py lines 136-168) *)
(* ===================================================================== *)

(** The abstract interface of a PTY process wrapper.  The redirector and
    the virtual serial port are written against it and guard its calls with
    [try/except], so an implementation may raise. *)
Class BasePTYProcess (P : Type) : Type := {
  pty_read : Z -> Z -> M P bytes;        (* read(size, timeout) *)
  pty_write : bytes -> M P Z;            (* write(data) *)
  pty_poll : M P (option Z);             (* poll(): exit code or None *)
  pty_close : M P unit;                  (* close() *)
  pty_is_alive : M P bool                (* is_alive() *)
}.

(* ===================================================================== *)
(** ** WindowsPTYProcess (mpbridge.py lines 173-330) *)
(* ===================================================================== *)

Module Windows.

(** Bytes of the character class [[0-9;?]]. *)
Definition is_csi_param (c : byte) : bool :=
  match c with
  | x30 | x31 | x32 | x33 | x34 | x35 | x36 | x37 | x38 | x39
  | x3b | x3f => true
  | _ => false
  end.

(** Bytes of the character class [[a-zA-Z]]. *)
Definition is_letter (c : byte) : bool :=
  let n := Byte.to_N c in
  ((65 <=? n) && (n <=? 90) || (97 <=? n) && (n <=? 122))%N.

(** Length of the match of [[0-9;?]*[a-zA-Z]] at the head of [data], if
    any.  The star is greedy; the two classes are disjoint, so giving back
    parameter bytes never produces a match and the match is unique. *)
Fixpoint csi_tail_len (data : bytes) : option nat :=
  match data with
  | [] => None
  | c :: data' =>
      if is_csi_param c then option_map S (csi_tail_len data')
      else if is_letter c then Some 1%nat
      else None
  end.

(** Length of the match of [rb'\x1b\[[0-9;?]*[a-zA-Z]'] at the head of
    [data], if any. *)
Definition csi_match_len (data : bytes) : option nat :=
  match data with
  | x1b :: x5b :: data' => option_map (fun n => S (S n)) (csi_tail_len data')
  | _ => None
  end.

(** [re.sub(pattern, b'', data)]: scan from the left; at each position a
    match is deleted and the scan resumes after it, otherwise the byte is
    kept.  [skip] counts the bytes of the current match still to delete. *)
Fixpoint sub_csi_from (skip : nat) (data : bytes) : bytes :=
  match data with
  | [] => []
  | c :: data' =>
      match skip with
      | S k => sub_csi_from k data'
      | O =>
          match csi_match_len data with
          | Some n => sub_csi_from (Nat.pred n) data'
          | None => c :: sub_csi_from 0 data'
          end
      end
  end.

(** [WindowsPTYProcess._filter_escape_sequences] (the debug log left out). *)
Definition _filter_escape_sequences (data : bytes) : bytes := sub_csi_from 0 data.

(** [result.replace(b"\r\r\n", b"\r\n")] *)
Definition normalize_crlf (data : bytes) : bytes := replace [CR; CR; LF] [CR; LF] data.

End Windows.

Module WindowsPTY.
Import Windows.

(** The [winpty.PTY] handle of the pywinpty library, as a scripted device.
    Text that the library returns or accepts as [str] is represented by its
    UTF-8 encoding, so [encode]/[decode] with [surrogateescape] are the
    identity on this representation. *)
Record WinPTY : Type := mkWinPTY {
  wp_reads : list (result bytes);       (* outcomes of successive read(blocking=False) *)
  wp_isalive : result bool;             (* outcome of isalive() *)
  wp_exitstatus : result (option Z);    (* outcome of get_exitstatus() *)
  wp_write_raises : bool;               (* whether write(text) raises *)
  wp_written : list bytes               (* texts written so far *)
}.

Definition lib_read : M WinPTY bytes :=
  fun w =>
    let (r, script) := next_outcome (Ok []) (wp_reads w) in
    (r, mkWinPTY script (wp_isalive w) (wp_exitstatus w) (wp_write_raises w) (wp_written w)).

Definition lib_write (text : bytes) : M WinPTY Z :=
  fun w =>
    if wp_write_raises w then (Raise OtherException, w)
    else (Ok (Z.of_nat (length text)),
          mkWinPTY (wp_reads w) (wp_isalive w) (wp_exitstatus w) (wp_write_raises w)
                   (wp_written w ++ [text])).

Definition lib_isalive : M WinPTY bool := fun w => (wp_isalive w, w).

Definition lib_get_exitstatus : M WinPTY (option Z) := fun w => (wp_exitstatus w, w).

Record WindowsPTYProcess : Type := mkWindowsPTYProcess {
  _closed : bool;
  _pty : WinPTY
}.

Definition on_pty {A} (m : M WinPTY A) : M WindowsPTYProcess A :=
  zoom _pty (fun w self => mkWindowsPTYProcess (_closed self) w) m.

(** The three statements both branches of [read] apply to a non-empty
    [data]: encode, normalize, filter. *)
Definition encode_normalize_filter (data : bytes) : bytes :=
  let result := data in                               (* data.encode("utf-8", ...) *)
  let result := normalize_crlf result in              (* result.replace(b"\r\r\n", b"\r\n") *)
  let result := _filter_escape_sequences result in
  result.

(** [WindowsPTYProcess.read]; [size] is not used by the source. *)
Definition read (size timeout : Z) : M WindowsPTYProcess bytes :=
  fun self =>
    if _closed self then (Ok [], self)
    else
      try_except
        (data <- on_pty lib_read ;;
         if nonempty data then ret (encode_normalize_filter data)
         else
           sleep timeout ;;;
           data <- on_pty lib_read ;;
           if nonempty data then ret (encode_normalize_filter data)
           else ret [])
        (fun _ => ret [])
        self.

(** [WindowsPTYProcess.write] *)
Definition write (data : bytes) : M WindowsPTYProcess Z :=
  fun self =>
    if _closed self then (Ok 0, self)
    else try_except (on_pty (lib_write data)) (fun _ => ret 0) self.

(** [WindowsPTYProcess.poll] *)
Definition poll : M WindowsPTYProcess (option Z) :=
  fun self =>
    if _closed self then (Ok (Some 0), self)
    else
      try_except
        (alive <- on_pty lib_isalive ;;
         if negb alive then
           exit_status <- on_pty lib_get_exitstatus ;;
           ret exit_status
         else ret None)
        (fun _ => ret (Some 0))
        self.

(** [WindowsPTYProcess.is_alive]: [self.poll() is None] *)
Definition is_alive : M WindowsPTYProcess bool :=
  r <- poll ;;
  ret (match r with None => true | Some _ => false end).

(** [WindowsPTYProcess.close] *)
Definition close : M WindowsPTYProcess unit :=
  fun self =>
    if _closed self then (Ok tt, self)
    else (Ok tt, mkWindowsPTYProcess true (_pty self)).

#[global] Instance WindowsPTYProcess_pty : BasePTYProcess WindowsPTYProcess := {
  pty_read := read;
  pty_write := write;
  pty_poll := poll;
  pty_close := close;
  pty_is_alive := is_alive
}.

End WindowsPTY.

(* ===================================================================== *)
(** ** UnixPTYProcess (mpbridge.py lines 337-433) *)
(* ===================================================================== *)

Module UnixPTY.

(** What the kernel does during one timed [select] on the master side. *)
Inductive fd_event : Type :=
| FdArrive (data : bytes)     (* the child wrote [data] (possibly nothing) *)
| FdFail.                     (* the call fails with OSError *)

(** The master file descriptor as a scripted device with its kernel
    buffer. *)
Record FdDevice : Type := mkFdDevice {
  fd_script : list fd_event;
  fd_buffer : bytes;
  fd_write_raises : bool;
  fd_written : list bytes
}.

(** [select.select([fd], [], [], timeout)]: readiness of the descriptor. *)
Definition select_select (timeout : Z) : M FdDevice bool :=
  fun d =>
    let (ev, script) := next_outcome (FdArrive []) (fd_script d) in
    match ev with
    | FdFail =>
        (Raise OSError,
         mkFdDevice script (fd_buffer d) (fd_write_raises d) (fd_written d))
    | FdArrive data =>
        let buf := fd_buffer d ++ data in
        (Ok (nonempty buf), mkFdDevice script buf (fd_write_raises d) (fd_written d))
    end.

(** [os.read(fd, size)]: at most [size] bytes of what is buffered. *)
Definition os_read (size : Z) : M FdDevice bytes :=
  fun d =>
    if size <? 0 then (Raise OSError, d)
    else
      (Ok (firstn (Z.to_nat size) (fd_buffer d)),
       mkFdDevice (fd_script d) (skipn (Z.to_nat size) (fd_buffer d))
                  (fd_write_raises d) (fd_written d)).

(** [os.write(fd, data)] *)
Definition os_write (data : bytes) : M FdDevice Z :=
  fun d =>
    if fd_write_raises d then (Raise OSError, d)
    else
      (Ok (Z.of_nat (length data)),
       mkFdDevice (fd_script d) (fd_buffer d) (fd_write_raises d) (fd_written d ++ [data])).

Record UnixPTYProcess : Type := mkUnixPTYProcess {
  _closed : bool;
  _fd : FdDevice;
  _process : option (option Z)   (* the Popen object and its returncode *)
}.

Definition on_fd {A} (m : M FdDevice A) : M UnixPTYProcess A :=
  zoom _fd (fun d self => mkUnixPTYProcess (_closed self) d (_process self)) m.

Definition set_closed : M UnixPTYProcess unit :=
  modify (fun self => mkUnixPTYProcess true (_fd self) (_process self)).

(** [UnixPTYProcess.read] *)
Definition read (size timeout : Z) : M UnixPTYProcess bytes :=
  fun self =>
    if _closed self then (Ok [], self)
    else
      try_except_os_value
        (ready <- on_fd (select_select timeout) ;;
         if ready then on_fd (os_read size) else ret [])
        (set_closed ;;; ret [])
        self.

(** [UnixPTYProcess.write] *)
Definition write (data : bytes) : M UnixPTYProcess Z :=
  fun self =>
    if _closed self then (Ok 0, self)
    else try_except_os_value (on_fd (os_write data)) (set_closed ;;; ret 0) self.

(** [UnixPTYProcess.poll] *)
Definition poll : M UnixPTYProcess (option Z) :=
  fun self =>
    match _process self with
    | None => (Ok (Some 0), self)
    | Some returncode => (Ok returncode, self)
    end.

(** [UnixPTYProcess.is_alive]: [self.poll() is None] *)
Definition is_alive : M UnixPTYProcess bool :=
  r <- poll ;;
  ret (match r with None => true | Some _ => false end).

(** [UnixPTYProcess.close]; a child still running is terminated and then
    reports the signal as its return code. *)
Definition close : M UnixPTYProcess unit :=
  fun self =>
    if _closed self then (Ok tt, self)
    else
      (Ok tt,
       mkUnixPTYProcess true (_fd self)
         (match _process self with
          | Some None => Some (Some (-15))
          | other => other
          end)).

#[global] Instance UnixPTYProcess_pty : BasePTYProcess UnixPTYProcess := {
  pty_read := read;
  pty_write := write;
  pty_poll := poll;
  pty_close := close;
  pty_is_alive := is_alive
}.

End UnixPTY.

(* ===================================================================== *)
(** ** VirtualSerialPort (mpbridge.py lines 443-630) *)
(* ===================================================================== *)

Module VirtualSerialPort.
Section WithPTY.

Context {P : Type} `{BasePTYProcess P}.

(** [RestartCallback]: produces the replacement child, or nothing, or
    raises.  The callback of [main] is the process manager's [restart],
    which holds the same PTY object as the port; the model passes that
    object in. *)
Definition RestartCallback : Type := P -> result (option P).

(** The fields the session core reads or writes; the simulated line
    settings and modem lines are left out. *)
Record t : Type := mk {
  _pty_process : P;
  timeout : Z;
  in_waiting : Z;
  restart_callback : option RestartCallback;
  in_raw_repl : bool;
  pending_reboot_output : bytes;
  closed : bool
}.

(** [VirtualSerialPort.__init__] *)
Definition __init__ (pty_process : P) (timeout : Z)
    (restart_callback : option RestartCallback) : t :=
  mk pty_process timeout 0 restart_callback false [] false.

Definition set_pty_process (v : P) (self : t) : t :=
  mk v (timeout self) (in_waiting self) (restart_callback self)
     (in_raw_repl self) (pending_reboot_output self) (closed self).

Definition set_in_waiting (v : Z) (self : t) : t :=
  mk (_pty_process self) (timeout self) v (restart_callback self)
     (in_raw_repl self) (pending_reboot_output self) (closed self).

Definition set_in_raw_repl (v : bool) (self : t) : t :=
  mk (_pty_process self) (timeout self) (in_waiting self) (restart_callback self)
     v (pending_reboot_output self) (closed self).

Definition set_pending_reboot_output (v : bytes) (self : t) : t :=
  mk (_pty_process self) (timeout self) (in_waiting self) (restart_callback self)
     (in_raw_repl self) v (closed self).

Definition set_closed (v : bool) (self : t) : t :=
  mk (_pty_process self) (timeout self) (in_waiting self) (restart_callback self)
     (in_raw_repl self) (pending_reboot_output self) v.

(** A call on [self._pty_process]. *)
Definition on_pty {A} (m : M P A) : M t A := zoom _pty_process set_pty_process m.

(** [has_process_exited]: [not self._pty_process.is_alive()] *)
Definition has_process_exited : M t bool :=
  alive <- on_pty pty_is_alive ;;
  ret (negb alive).

(** [can_restart] *)
Definition can_restart : M t bool :=
  gets (fun self => match restart_callback self with Some _ => true | None => false end).

(** [do_restart] *)
Definition do_restart : M t bool :=
  fun self =>
    match restart_callback self with
    | None => (Ok false, self)
    | Some callback =>
        match callback (_pty_process self) with
        | Raise e => (Raise e, self)
        | Ok (Some result) =>
            (Ok true, set_closed false (set_in_raw_repl false (set_pty_process result self)))
        | Ok None => (Ok false, self)
        end
    end.

(** [_update_raw_repl_state_from_response] *)
Definition _update_raw_repl_state_from_response (data : bytes) : M t unit :=
  fun self =>
    if contains RAW_REPL_PROMPT data then (Ok tt, set_in_raw_repl true self)
    else if contains FRIENDLY_PROMPT data && in_raw_repl self
         then (Ok tt, set_in_raw_repl false self)
         else (Ok tt, self).

(** [read] *)
Definition read (size : Z) : M t bytes :=
  fun self =>
    if nonempty (pending_reboot_output self) then
      let chunk := slice_to (pending_reboot_output self) size in
      (Ok chunk,
       set_pending_reboot_output (slice_from (pending_reboot_output self) size) self)
    else if closed self then (Ok [], self)
    else
      try_except
        (data <- on_pty (pty_read size (timeout self)) ;;
         (if nonempty data then _update_raw_repl_state_from_response data else ret tt) ;;;
         ret data)
        (fun _ => modify (set_closed true) ;;; ret [])
        self.

(** [write] (the debug log left out) *)
Definition write (data : bytes) : M t Z :=
  fun self =>
    if closed self then (Ok 0, self)
    else
      let self :=
        if contains CTRL_A data then set_in_raw_repl true self
        else if contains CTRL_B data then set_in_raw_repl false self
        else self in
      try_except (on_pty (pty_write data))
                 (fun _ => modify (set_closed true) ;;; ret 0)
                 self.

(** [update_in_waiting]; the lock is held for the whole body. *)
Definition update_in_waiting : M t unit :=
  fun self =>
    if closed self then (Ok tt, set_in_waiting 0 self)
    else
      try_except
        (data <- on_pty (pty_read 1 1) ;;
         if nonempty data then
           modify (fun self =>
             set_in_waiting 1
               (set_pending_reboot_output (data ++ pending_reboot_output self) self))
         else modify (set_in_waiting 0))
        (fun _ => modify (fun self => set_in_waiting 0 (set_closed true self)))
        self.

(** [reset_for_new_connection] *)
Definition reset_for_new_connection : M t unit :=
  modify (fun self => set_pending_reboot_output [] (set_in_raw_repl false self)).

End WithPTY.

Arguments t P : clear implicits.
Arguments RestartCallback P : clear implicits.

End VirtualSerialPort.

(* ===================================================================== *)
(** ** The client socket *)
(* ===================================================================== *)

(** The accepted client socket as a scripted device: [sendall] either
    delivers its whole argument or fails with [socket.error]. *)
Record Socket : Type := mkSocket {
  sock_sent : list bytes;          (* payloads delivered to the client, in order *)
  sock_send_fails : list bool      (* whether the successive sendall calls fail *)
}.

Definition sendall (data : bytes) : M Socket unit :=
  fun s =>
    let (fails, script) := next_outcome false (sock_send_fails s) in
    if fails then (Raise OSError, mkSocket (sock_sent s) script)
    else (Ok tt, mkSocket (sock_sent s ++ [data]) script).

(* ===================================================================== *)
(** ** BaseRedirector and its two variants (mpbridge.py lines 633-966) *)
(* ===================================================================== *)

Module Redirector.

(** The two concrete classes.  [escape] stands for the RFC 2217 codec's
    [b"".join(self.rfc2217.escape(data))], a library function. *)
Inductive variant : Type :=
| Rfc2217 (escape : bytes -> bytes)    (* class Redirector *)
| RawSocket.                           (* class SocketRedirector *)

(** Loop variables of the drain loop in [_reenter_raw_repl]. *)
Record drain_vars : Type := mkDrain {
  accumulated : bytes;
  empty_reads : Z
}.

Section WithPTY.

Context {P : Type} `{BasePTYProcess P}.
Variable IS_WINDOWS : bool.
Variable kind : variant.

Record t : Type := mk {
  serial : VirtualSerialPort.t P;
  socket : Socket;
  alive : bool;
  _restarting : bool
}.

Definition set_serial (v : VirtualSerialPort.t P) (self : t) : t :=
  mk v (socket self) (alive self) (_restarting self).

Definition set_socket (v : Socket) (self : t) : t :=
  mk (serial self) v (alive self) (_restarting self).

Definition set_alive (v : bool) (self : t) : t :=
  mk (serial self) (socket self) v (_restarting self).

Definition set_restarting (v : bool) (self : t) : t :=
  mk (serial self) (socket self) (alive self) v.

Definition on_serial {A} (m : M (VirtualSerialPort.t P) A) : M t A :=
  zoom serial set_serial m.

(** A call on [self.serial.pty_process]. *)
Definition on_pty_process {A} (m : M P A) : M t A :=
  on_serial (VirtualSerialPort.on_pty m).

(** [write_to_socket]; the lock only serializes writers. *)
Definition write_to_socket (data : bytes) : M t unit :=
  try_except_socket (zoom socket set_socket (sendall data))
                    (modify (set_alive false)).

(** [_send_to_client] of the variant *)
Definition _send_to_client (data : bytes) : M t unit :=
  match kind with
  | Rfc2217 escape => write_to_socket (escape data)
  | RawSocket => write_to_socket data
  end.

(** [_safe_send] *)
Definition _safe_send (data : bytes) : M t unit :=
  try_except_socket (_send_to_client data) (ret tt).

(** [_read_banner] *)
Definition _read_banner : M t bytes :=
  try_except
    (on_pty_process (pty_read MP_BRIDGE_READ_BUFFER_SIZE MP_BRIDGE_BANNER_READ_TIMEOUT))
    (fun _ => ret []).

Definition max_attempts : nat := 50.

Definition max_empty_reads : Z := if IS_WINDOWS then 10 else 5.

(** One pass through the body of the drain loop once [chunk] has been
    read: the new loop variables and whether the body reached a [break]. *)
Definition drain_body (v : drain_vars) (chunk : bytes) : drain_vars * bool :=
  if nonempty chunk then
    let accumulated := accumulated v ++ chunk in
    let empty_reads := 0 in
    if contains RAW_REPL_PROMPT accumulated && endswith (b ">") (rstrip accumulated)
    then (mkDrain accumulated empty_reads, true)
    else (mkDrain accumulated empty_reads, false)
  else
    let empty_reads := empty_reads v + 1 in
    if (max_empty_reads <? empty_reads) && nonempty (accumulated v)
    then (mkDrain (accumulated v) empty_reads, true)
    else if max_empty_reads * 2 <? empty_reads
         then (mkDrain (accumulated v) empty_reads, true)
         else (mkDrain (accumulated v) empty_reads, false).

(** [for _ in range(attempts)]: sleep, read a chunk, run the body.  Returns
    the final loop variables and, for the statements about the loop, the
    chunks read in order. *)
Fixpoint drain_loop (attempts : nat) (v : drain_vars) (chunks : list bytes)
  : M t (drain_vars * list bytes) :=
  match attempts with
  | O => ret (v, chunks)
  | S attempts' =>
      sleep MP_BRIDGE_DRAIN_TIMEOUT ;;;
      chunk <- on_pty_process (pty_read MP_BRIDGE_READ_BUFFER_SIZE MP_BRIDGE_DRAIN_TIMEOUT) ;;
      let (v', break) := drain_body v chunk in
      if break then ret (v', chunks ++ [chunk])
      else drain_loop attempts' v' (chunks ++ [chunk])
  end.

(** The [try] block of [_reenter_raw_repl]. *)
Definition _reenter_raw_repl_try : M t unit :=
  sleep MP_BRIDGE_DRAIN_TIMEOUT ;;;
  on_pty_process (pty_write CTRL_A) ;;;
  drain_loop max_attempts (mkDrain [] 0) [] ;;;
  _safe_send MPREMOTE_RAW_REPL_SOFT_REBOOT ;;;
  on_serial (modify (VirtualSerialPort.set_in_raw_repl true)).

(** The first [except Exception] block of [_reenter_raw_repl].  The second
    [except Exception] clause of the source can never be selected: the
    first one catches every exception it would. *)
Definition _reenter_raw_repl_except : M t unit :=
  _safe_send MPREMOTE_SOFT_REBOOT ;;;
  _safe_send MPREMOTE_RAW_REPL_SOFT_REBOOT ;;;
  on_serial (modify (VirtualSerialPort.set_in_raw_repl true)).

(** [_reenter_raw_repl] *)
Definition _reenter_raw_repl : M t unit :=
  try_except _reenter_raw_repl_try (fun _ => _reenter_raw_repl_except).

(** [_complete_restart] *)
Definition _complete_restart (was_in_raw_repl : bool) : M t unit :=
  let delay :=
    if IS_WINDOWS then MP_BRIDGE_WINDOWS_RESTART_DELAY
    else MP_BRIDGE_PROCESS_RESTART_DELAY in
  sleep delay ;;;
  banner <- _read_banner ;;
  if was_in_raw_repl then _reenter_raw_repl
  else if nonempty banner then _safe_send banner
  else ret tt.

(** [_handle_process_exit] *)
Definition _handle_process_exit : M t bool :=
  exited <- on_serial VirtualSerialPort.has_process_exited ;;
  if negb exited then ret false
  else
    modify (set_restarting true) ;;;
    try_finally
      (try_except
         (was_in_raw_repl <- gets (fun self => VirtualSerialPort.in_raw_repl (serial self)) ;;
          (if negb was_in_raw_repl then _safe_send MPREMOTE_SOFT_REBOOT else ret tt) ;;;
          can <- on_serial VirtualSerialPort.can_restart ;;
          if negb can then modify (set_alive false) ;;; ret false
          else
            restarted <- on_serial VirtualSerialPort.do_restart ;;
            if negb restarted then modify (set_alive false) ;;; ret false
            else _complete_restart was_in_raw_repl ;;; ret true)
         (fun _ => modify (set_alive false) ;;; ret false))
      (set_restarting false).

(** The body of the [while self.alive] loop of [reader]: [true] when the
    loop goes on to test [self.alive] again, [false] when it is left by
    [break]. *)
Definition reader_iteration : M t bool :=
  try_except
    (restarted <- _handle_process_exit ;;
     if restarted then ret true
     else
       data <- on_serial (VirtualSerialPort.read MP_BRIDGE_READ_BUFFER_SIZE) ;;
       (if nonempty data then _send_to_client data else ret tt) ;;;
       ret true)
    (fun _ => ret false).

(** [reader], unrolled at most [fuel] times: [Some tt] when the loop ended
    and the epilogue ran, [None] when it was still running. *)
Fixpoint reader (fuel : nat) : M t (option unit) :=
  match fuel with
  | O => ret None
  | S fuel' =>
      a <- gets alive ;;
      if a then
        continue <- reader_iteration ;;
        if continue then reader fuel'
        else modify (set_alive false) ;;; ret (Some tt)
      else modify (set_alive false) ;;; ret (Some tt)
  end.

End WithPTY.

Arguments t P : clear implicits.

End Redirector.

(* ===================================================================== *)
(** ** The process manager and [main] (mpbridge.py lines 1177-1208, 1333-1375) *)
(* ===================================================================== *)

Module Main.
Section WithPTY.

Context {P : Type} `{BasePTYProcess P}.

(** [MicroPythonProcessManager.restart], that is [create_process]: close
    the old PTY process, ignoring what that raises, then construct a new
    one.  [spawn] is the outcome of the constructor [PTYProcess(cmd, cwd)]. *)
Definition process_manager_restart (spawn : result P) : VirtualSerialPort.RestartCallback P :=
  fun old =>
    let _ := try_except pty_close (fun _ => ret tt) old in
    match spawn with
    | Ok new_pty => Ok (Some new_pty)
    | Raise e => Raise e
    end.

(** The [VirtualSerialPort] that [main] constructs: [timeout=0.1]. *)
Definition virtual_serial (pty_process : P) (spawn : result P) : VirtualSerialPort.t P :=
  VirtualSerialPort.__init__ pty_process 100 (Some (process_manager_restart spawn)).

End WithPTY.
End Main.

(* ===================================================================== *)
(** ** A scripted PTY process *)
(* ===================================================================== *)

(** An implementation of the [BasePTYProcess] interface driven by a
    script, which also records the calls made on it.  It stands for any
    subclass of the abstract class, including one whose methods raise. *)
Module ScriptedPTY.

Inductive call : Type :=
| CallRead (size timeout : Z)
| CallWrite (data : bytes)
| CallPoll
| CallIsAlive
| CallClose.

Record t : Type := mk {
  reads : list (result bytes);     (* outcomes of the successive read calls *)
  write_outcome : result Z;        (* outcome of every write call *)
  exit_code : option Z;            (* None while the child runs *)
  calls : list call                (* calls made so far, in order *)
}.

Definition log (c : call) (self : t) : t :=
  mk (reads self) (write_outcome self) (exit_code self) (calls self ++ [c]).

Definition read (size timeout : Z) : M t bytes :=
  fun self =>
    let (r, script) := next_outcome (Ok []) (reads self) in
    (r, mk script (write_outcome self) (exit_code self)
           (calls self ++ [CallRead size timeout])).

Definition write (data : bytes) : M t Z :=
  fun self => (write_outcome self, log (CallWrite data) self).

Definition poll : M t (option Z) :=
  fun self => (Ok (exit_code self), log CallPoll self).

Definition is_alive : M t bool :=
  fun self =>
    (Ok (match exit_code self with None => true | Some _ => false end),
     log CallIsAlive self).

Definition close : M t unit :=
  fun self => (Ok tt, log CallClose self).

#[global] Instance ScriptedPTY_pty : BasePTYProcess t := {
  pty_read := read;
  pty_write := write;
  pty_poll := poll;
  pty_close := close;
  pty_is_alive := is_alive
}.

(** A running child with the given read script. *)
Definition running (script : list (result bytes)) : t := mk script (Ok 1) None [].

(** A child that has exited with status 0. *)
Definition exited (script : list (result bytes)) : t := mk script (Ok 1) (Some 0) [].

End ScriptedPTY.

(* ===================================================================== *)
(** ** The accept loop and the connection guard (mpbridge.py lines 1228-1330) *)
(* ===================================================================== *)

(** [run_server_loop] runs in the main thread; each accepted client gets a
    [connection-guard] thread running [reject_loop].  The threads and the
    peers on the network are interleaved as a labelled transition system:
    a label names which thread, or the network, moves next.  A session,
    the time spent inside [redirector.shortcircuit()], lasts from the
    accept to the label [SessionEnd]. *)
Module Server.

(** [protocol_name] of a listener: ["rfc2217"] or ["socket"]. *)
Inductive protocol : Type :=
| rfc2217
| socket.


(** A connection made by a peer.  [peer_gone]: the peer has already reset
    it, so a [sendall] on it fails with [socket.error]. *)
Record conn : Type := mkConn {
  conn_id : nat;
  peer_gone : bool
}.

(** How the bridge disposed of a connection. *)
Inductive fate : Type :=
| Served                          (* accepted by the main loop, bridged, closed *)
| Rejected (banner_sent : bool).  (* accepted by the guard and closed *)

(** Where the main thread stands in [run_server_loop]. *)
Inductive main_pc : Type :=
| Selecting                                     (* in _socket_select(server_sockets) *)
| Accepting (readable : list protocol)          (* in the for loop, at srv.accept() *)
| InSession (client : conn) (rest : list protocol).  (* in redirector.shortcircuit() *)

Record state : Type := mkState {
  backlog_rfc2217 : list conn;        (* connections pending on each listener *)
  backlog_socket : list conn;
  pc : main_pc;
  protocol_name : option protocol;    (* variable shared with reject_loop *)
  reject_thread_alive : bool;         (* variable shared with reject_loop *)
  guards : nat;                       (* guard threads that have not returned *)
  open_clients : list conn;           (* accepted by the main loop, not yet closed *)
  fates : list (conn * fate)          (* connections closed so far, in order *)
}.

Definition backlog (p : protocol) (s : state) : list conn :=
  match p with
  | rfc2217 => backlog_rfc2217 s
  | socket => backlog_socket s
  end.





(** [servers] as [create_server_sockets] returns it: the RFC 2217 listener,
    then the raw one unless its port is 0. *)
Definition create_server_sockets (socket_port : Z) : list protocol :=
  if 0 <? socket_port then [rfc2217; socket] else [rfc2217].


(** The listeners that [_socket_select(server_sockets)] reports readable. *)
Definition readable (servers : list protocol) (s : state) : list protocol :=
  filter (fun p => match backlog p s with [] => false | _ :: _ => true end) servers.






End Server.

(* ===================================================================== *)
(** ** Functions used to state the properties *)
(* ===================================================================== *)

Module Statements.

(** The value of [in_raw_repl] after [VirtualSerialPort.write] on an open
    port, from its value before. *)
Definition raw_repl_after_write (data : bytes) (before : bool) : bool :=
  if contains CTRL_A data then true
  else if contains CTRL_B data then false
  else before.

(** The value of [in_raw_repl] after the detection on child output, from
    its value before. *)
Definition raw_repl_after_response (data : bytes) (before : bool) : bool :=
  if contains RAW_REPL_PROMPT data then true
  else if contains FRIENDLY_PROMPT data && before then false
  else before.

(** What a payload becomes on the wire for each variant. *)
Definition frame (kind : Redirector.variant) (data : bytes) : bytes :=
  match kind with
  | Redirector.Rfc2217 escape => escape data
  | Redirector.RawSocket => data
  end.

(** The loop variables after one more pass through the drain loop's body. *)
Definition drain_step (IS_WINDOWS : bool) (v : Redirector.drain_vars) (chunk : bytes)
  : Redirector.drain_vars :=
  fst (Redirector.drain_body IS_WINDOWS v chunk).

(** The prompt test of the drain loop on the bytes accumulated so far. *)
Definition prompt_seen (acc : bytes) : bool :=
  contains RAW_REPL_PROMPT acc && endswith (b ">") (rstrip acc).

(** Number of empty chunks read since the last non-empty one. *)
Definition trailing_empty (chunks : list bytes) : Z :=
  fold_left (fun e chunk => if nonempty chunk then 0 else e + 1) chunks 0.

(** Whether the drain loop leaves by [break] right after it has read
    [chunks] (the last of them just now): the last chunk is not empty and
    the prompt test succeeds on all the bytes read; or the last chunk is
    empty and the run of empty chunks it ends is longer than
    [max_empty_reads] with some byte read before, or longer than twice
    [max_empty_reads]. *)
Definition stops_after (IS_WINDOWS : bool) (chunks : list bytes) : bool :=
  let acc := concat chunks in
  let e := trailing_empty chunks in
  if e =? 0 then prompt_seen acc
  else (Redirector.max_empty_reads IS_WINDOWS <? e) && nonempty acc
       || (Redirector.max_empty_reads IS_WINDOWS * 2 <? e).

(** The stop test as the specification words it: the prompt has been
    seen, or the empty-read budget (5 on POSIX, 10 on Windows) is used up,
    or 50 iterations were made. *)
Definition claimed_stops_after (IS_WINDOWS : bool) (chunks : list bytes) : bool :=
  prompt_seen (concat chunks)
  || ((if IS_WINDOWS then 10 else 5) <=? Z.of_nat (length (filter (fun c => negb (nonempty c)) chunks)))
  || (50 <=? length chunks)%nat.


Section Reentry.

Context {P : Type} `{BasePTYProcess P}.

(** [pty_only r r']: the two redirector states differ at most in the PTY
    process object of the serial port. *)
Definition pty_only (r r' : Redirector.t P) : Prop :=
  exists p,
    r' = Redirector.set_serial
           (VirtualSerialPort.set_pty_process p (Redirector.serial r)) r.

(** [sends r r' l]: if the session is alive in [r'], it was alive in [r]
    and between the two the client socket was handed exactly the payloads
    [l], in this order. *)
Definition sends (r r' : Redirector.t P) (l : list bytes) : Prop :=
  Redirector.alive r' = true ->
  Redirector.alive r = true
  /\ sock_sent (Redirector.socket r') = sock_sent (Redirector.socket r) ++ l.

(** The redirector state in which [_handle_process_exit], called in state
    [r] with [in_raw_repl] set and the child gone, enters
    [_reenter_raw_repl]: after the exit test, the restart and the banner
    read. *)
Definition reentry_state (r : Redirector.t P) : Redirector.t P :=
  let r0 := snd (Redirector.on_serial VirtualSerialPort.has_process_exited r) in
  let r1 := snd (Redirector.on_serial VirtualSerialPort.do_restart
                   (Redirector.set_restarting true r0)) in
  snd (Redirector._read_banner r1).

(** The startup banner that [_handle_process_exit], called in state [r]
    with [in_raw_repl] clear and the child gone, reads from the new child
    after it has sent the friendly banner and restarted. *)
Definition startup_banner (kind : Redirector.variant) (r : Redirector.t P) : result bytes :=
  let r0 := snd (Redirector.on_serial VirtualSerialPort.has_process_exited r) in
  let r1 := snd (Redirector._safe_send kind MPREMOTE_SOFT_REBOOT
                   (Redirector.set_restarting true r0)) in
  let r2 := snd (Redirector.on_serial VirtualSerialPort.do_restart r1) in
  fst (Redirector._read_banner r2).

End Reentry.

End Statements.

(* ===================================================================== *)
(** ** Concrete sessions *)
(* ===================================================================== *)

Module Scenarios.

(** A silent, running child. *)
Definition silent : ScriptedPTY.t := ScriptedPTY.running [].

(** A new child that prints its banner and then answers CTRL-A with the
    raw-REPL prompt. *)
Definition fresh_child : ScriptedPTY.t :=
  ScriptedPTY.running
    [Ok (b "MicroPython" ++ [CR; LF] ++ b ">>> ");
     Ok (b "raw REPL; CTRL-B to exit" ++ [CR; LF] ++ b ">")].

(** A new child of a PTY subclass whose [write] raises. *)
Definition fresh_child_write_raises : ScriptedPTY.t :=
  ScriptedPTY.mk [] (Raise OtherException) None [].

(** The port of [main] over a scripted child, with [spawn] as the process
    the next restart produces. *)
Definition port (child spawn : ScriptedPTY.t) : VirtualSerialPort.t ScriptedPTY.t :=
  Main.virtual_serial child (Ok spawn).

(** A session as [shortcircuit] starts it, on the raw port. *)
Definition session (p : VirtualSerialPort.t ScriptedPTY.t) : Redirector.t ScriptedPTY.t :=
  Redirector.mk p (mkSocket [] []) true false.

(** A port with three bytes pending. *)
Definition port_pending : VirtualSerialPort.t ScriptedPTY.t :=
  VirtualSerialPort.set_pending_reboot_output (b "abc") (port silent silent).

(** The same port, closed. *)
Definition port_pending_closed : VirtualSerialPort.t ScriptedPTY.t :=
  VirtualSerialPort.set_closed true port_pending.

(** A port whose child has just printed the raw-REPL prompt. *)
Definition port_prompt : VirtualSerialPort.t ScriptedPTY.t :=
  port (ScriptedPTY.running [Ok (b "raw REPL; CTRL-B to exit" ++ [CR; LF] ++ b ">")]) silent.

(** A raw-REPL session whose child has exited. *)
Definition raw_session (spawn : ScriptedPTY.t) : Redirector.t ScriptedPTY.t :=
  session (VirtualSerialPort.set_in_raw_repl true (port (ScriptedPTY.exited []) spawn)).

(** Child output with a CSI sequence between a CR and a CR LF. *)
Definition csi_between_cr : bytes := [CR; ESC] ++ b "[c" ++ [CR; LF].

(** A Windows PTY whose library hands out the given chunks. *)
Definition windows_pty (chunks : list (result bytes)) : WindowsPTY.WindowsPTYProcess :=
  WindowsPTY.mkWindowsPTYProcess false
    (WindowsPTY.mkWinPTY chunks (Ok true) (Ok None) false []).

(** A Windows PTY whose library raises when asked whether the child is
    alive, and one whose child has exited with status 0. *)
Definition windows_pty_poll_raises : WindowsPTY.WindowsPTYProcess :=
  WindowsPTY.mkWindowsPTYProcess false
    (WindowsPTY.mkWinPTY [] (Raise OtherException) (Ok None) false []).

Definition windows_pty_exited : WindowsPTY.WindowsPTYProcess :=
  WindowsPTY.mkWindowsPTYProcess false
    (WindowsPTY.mkWinPTY [] (Ok false) (Ok (Some 0)) false []).

(** A friendly-mode session on Windows over the given PTY; a restart
    produces a child that prints a banner. *)
Definition windows_session (pty : WindowsPTY.WindowsPTYProcess)
  : Redirector.t WindowsPTY.WindowsPTYProcess :=
  Redirector.mk
    (Main.virtual_serial pty (Ok (windows_pty [Ok (b "MicroPython" ++ [CR; LF] ++ b ">>> ")])))
    (mkSocket [] []) true false.


Definition servers : list Server.protocol := Server.create_server_sockets 2218.




End Scenarios.

(* ===================================================================== *)
(** ** The writer flow and [stop] (mpbridge.py lines 845-877, 961-966) *)
(* ===================================================================== *)

Module Writer.

(** What one [socket.recv] gives: bytes (none at all when the peer has
    closed the connection), or [socket.error]. *)
Inductive recv_outcome : Type :=
| Recv (data : bytes)
| RecvError.

(** Where a run of [writer] stands when the input listed so far is used
    up. *)
Inductive writer_end : Type :=
| Stopped       (* the loop was left and stop() has run *)
| Parked        (* in the inner loop, sleeping while _restarting is set *)
| Receiving.    (* blocked in recv: the client has sent nothing more *)

Section WithPTY.

Context {P : Type} `{BasePTYProcess P}.

(** [SocketRedirector._receive_from_client], on the outcome of its
    [self.socket.recv(MP_BRIDGE_READ_BUFFER_SIZE)]. *)
Definition _receive_from_client (o : recv_outcome) : M (Redirector.t P) (option bytes) :=
  match o with
  | RecvError => raise OSError
  | Recv data => if nonempty data then ret (Some data) else ret None
  end.

(** [BaseRedirector.stop]; the joins of the other threads are left out. *)
Definition stop : M (Redirector.t P) unit :=
  fun self =>
    if Redirector.alive self then (Ok tt, Redirector.set_alive false self)
    else (Ok tt, self).

(** The [try] block of one turn of the outer loop of [writer], after the
    inner wait: [true] to go on, [false] for [break].  [receive] is the
    variant's [_receive_from_client]. *)
Definition writer_turn (receive : recv_outcome -> M (Redirector.t P) (option bytes))
    (o : recv_outcome) : M (Redirector.t P) bool :=
  try_except
    (data <- receive o ;;
     match data with
     | None => ret false
     | Some data =>
         (if nonempty data
          then Redirector.on_serial (VirtualSerialPort.write data) ;;; ret tt
          else ret tt) ;;;
         ret true
     end)
    (fun _ => ret false).

(** [BaseRedirector.writer] run on the outcomes of the successive [recv]
    calls; it returns where it stands and the outcomes not consumed. *)
Fixpoint writer (receive : recv_outcome -> M (Redirector.t P) (option bytes))
    (incoming : list recv_outcome)
  : M (Redirector.t P) (writer_end * list recv_outcome) :=
  fun self =>
    if negb (Redirector.alive self) then (stop ;;; ret (Stopped, incoming)) self
    else if Redirector._restarting self then (Ok (Parked, incoming), self)
    else
      match incoming with
      | [] => (Ok (Receiving, []), self)
      | o :: rest =>
          match writer_turn receive o self with
          | (Ok true, self') => writer receive rest self'
          | (Ok false, self') => (stop ;;; ret (Stopped, rest)) self'
          | (Raise e, self') => (Raise e, self')
          end
      end.

End WithPTY.
End Writer.

(* ===================================================================== *)
(** ** A new connection in [run_server_loop] (mpbridge.py lines 1294-1301) *)
(* ===================================================================== *)

Module Dispatcher.
Section WithPTY.

Context {P : Type} `{BasePTYProcess P}.

(** [MicroPythonProcessManager.create_process]: the old PTY process is
    closed, whatever that raises, and a new one constructed.  [old] is the
    object the manager holds (the one the port holds too), [spawn] the
    outcome of [PTYProcess(self.cmd, self.cwd)]. *)
Definition create_process (spawn : result P) (old : P) : result P :=
  let _ := try_except pty_close (fun _ => ret tt) old in
  spawn.

(** The statements of [run_server_loop] between the accept and the
    construction of the redirector: restart a child that has exited, then
    reset the per-connection state. *)
Definition prepare_virtual_serial (spawn : result P) : M (VirtualSerialPort.t P) unit :=
  exited <- VirtualSerialPort.has_process_exited ;;
  (if exited then
     fun virtual_serial =>
       match create_process spawn (VirtualSerialPort._pty_process virtual_serial) with
       | Ok new_pty =>
           (Ok tt,
            VirtualSerialPort.set_closed false
              (VirtualSerialPort.set_pty_process new_pty virtual_serial))
       | Raise e => (Raise e, virtual_serial)
       end
   else ret tt) ;;;
  VirtualSerialPort.reset_for_new_connection.

End WithPTY.
End Dispatcher.

(* ===================================================================== *)
(** ** The simulated line settings (mpbridge.py lines 473-480, 589-609) *)
(* ===================================================================== *)

(** [get_settings] and [apply_settings] touch only the seven settings
    attributes of the port, kept here in a record of their own. *)
Module SerialSettings.

(** The values the settings take. *)
Inductive pyval : Type :=
| PyInt (n : Z)
| PyStr (s : string)
| PyBool (v : bool).

(** A [dict] with string keys, as the list of its items; a lookup takes
    the first item with the key. *)
Definition dict : Type := list (string * pyval).

Fixpoint lookup (d : dict) (key : string) : option pyval :=
  match d with
  | [] => None
  | (k, v) :: d' => if String.eqb k key then Some v else lookup d' key
  end.

(** [d.get(key, default)] *)
Definition dict_get (d : dict) (key : string) (default : pyval) : pyval :=
  match lookup d key with
  | Some v => v
  | None => default
  end.

Record t : Type := mk {
  baudrate : pyval;
  bytesize : pyval;
  parity : pyval;
  stopbits : pyval;
  rtscts : pyval;
  dsrdtr : pyval;
  xonxoff : pyval
}.

(** The settings [VirtualSerialPort.__init__] stores. *)
Definition __init__ : t :=
  mk (PyInt 115200) (PyInt 8) (PyStr "N") (PyInt 1)
     (PyBool false) (PyBool false) (PyBool false).

(** [get_settings] *)
Definition get_settings (self : t) : dict :=
  [("baudrate"%string, baudrate self);
   ("bytesize"%string, bytesize self);
   ("parity"%string, parity self);
   ("stopbits"%string, stopbits self);
   ("rtscts"%string, rtscts self);
   ("dsrdtr"%string, dsrdtr self);
   ("xonxoff"%string, xonxoff self)].

(** [apply_settings] *)
Definition apply_settings (settings : dict) (self : t) : t :=
  mk (dict_get settings "baudrate" (baudrate self))
     (dict_get settings "bytesize" (bytesize self))
     (dict_get settings "parity" (parity self))
     (dict_get settings "stopbits" (stopbits self))
     (dict_get settings "rtscts" (rtscts self))
     (dict_get settings "dsrdtr" (dsrdtr self))
     (dict_get settings "xonxoff" (xonxoff self)).

(** The keys of [get_settings]. *)
Definition setting_keys : list string :=
  ["baudrate"; "bytesize"; "parity"; "stopbits"; "rtscts"; "dsrdtr"; "xonxoff"]%string.

End SerialSettings.

(* ===================================================================== *)
(** ** Command line and logging setup (mpbridge.py lines 1114-1138) *)
(* ===================================================================== *)

Module CommandLine.

(** Python [str] values as lists of characters. *)
Definition str : Type := list Ascii.ascii.

Definition lit (x : string) : str := list_ascii_of_string x.

(** The levels of the [logging] module. *)
Definition WARNING : Z := 30.
Definition INFO : Z := 20.
Definition DEBUG : Z := 10.
Definition NOTSET : Z := 0.

(** [t[i]] on a tuple: a negative index counts from the end; [None] stands
    for IndexError. *)
Definition tuple_index {A} (t : list A) (i : Z) : option A :=
  if 0 <=? i then nth_error t (Z.to_nat i)
  else if 0 <=? Z.of_nat (length t) + i then nth_error t (Z.to_nat (Z.of_nat (length t) + i))
       else None.

(** The level [setup_logging] configures for a verbosity count. *)
Definition logging_level (verbosity : Z) : option Z :=
  let verbosity := Z.min verbosity 3 in
  tuple_index [WARNING; INFO; DEBUG; NOTSET] verbosity.

Section Split.

(** Which characters [str.split()] treats as whitespace ([str.isspace]). *)
Variable isspace : Ascii.ascii -> bool.

(** [s.split()]: maximal runs of characters that are not whitespace.
    [word] holds, reversed, the characters of the run being read. *)
Fixpoint split_from (word : str) (s : str) : list str :=
  match s with
  | [] => match word with [] => [] | _ :: _ => [rev word] end
  | c :: s' =>
      if isspace c then
        match word with
        | [] => split_from [] s'
        | _ :: _ => rev word :: split_from [] s'
        end
      else split_from (c :: word) s'
  end.

Definition split (s : str) : list str := split_from [] s.

(** A word of a split: not empty, and free of whitespace. *)
Definition word_ok (w : str) : Prop :=
  w <> [] /\ forallb (fun c => negb (isspace c)) w = true.

(** The attributes of the argparse namespace that the command uses. *)
Record Namespace : Type := mkNamespace {
  MICROPYTHON_PATH : str;
  mp_verbose : Z;
  mp_optimize : Z;
  mp_impl_opts : list str;
  micropython_args : str
}.

(** [[x] * n] for a Python int [n]: empty when [n] is not positive. *)
Definition times (x : str) (n : Z) : list str := repeat x (Z.to_nat n).

(** [build_micropython_command] *)
Definition build_micropython_command (args : Namespace) : list str :=
  let cmd := [MICROPYTHON_PATH args] in
  let cmd := cmd ++ times (lit "-v") (mp_verbose args) in
  let cmd := cmd ++ times (lit "-O") (mp_optimize args) in
  let cmd := fold_left (fun cmd opt => cmd ++ [lit "-X"; opt]) (mp_impl_opts args) cmd in
  match micropython_args args with
  | [] => cmd
  | _ :: _ => cmd ++ split (micropython_args args)
  end.

End Split.

End CommandLine.

(* ===================================================================== *)
(** ** Bookkeeping of connections over a run of the server *)
(* ===================================================================== *)

Module Accounting.





End Accounting.

(* ===================================================================== *)
(** ** Further concrete runs *)
(* ===================================================================== *)

Module Cases.
Import Scenarios.

(** Colour codes around a word, as a Windows console prints them. *)
Definition coloured_pre : bytes := b "ab".
Definition coloured_params : bytes := b "1;32".
Definition coloured_letter : byte := x6d.
Definition coloured_rest : bytes := b "cd".

(** The pywinpty handle of a running child with output at hand. *)
Definition winpty_plain : WindowsPTY.WinPTY :=
  WindowsPTY.mkWinPTY [Ok (b "hi")] (Ok true) (Ok None) false [].

(** A Unix PTY whose next [select] fails and whose [os.write] fails. *)
Definition unix_failing : UnixPTY.UnixPTYProcess :=
  UnixPTY.mkUnixPTYProcess false (UnixPTY.mkFdDevice [UnixPTY.FdFail] [] true []) (Some None).

(** A port whose child's next read raises. *)
Definition port_read_raises : VirtualSerialPort.t ScriptedPTY.t :=
  port (ScriptedPTY.running [Raise OSError]) silent.

(** A port closed by an error, over an exited child, in raw REPL mode. *)
Definition port_closed_exited : VirtualSerialPort.t ScriptedPTY.t :=
  VirtualSerialPort.set_closed true
    (VirtualSerialPort.set_in_raw_repl true (port (ScriptedPTY.exited []) fresh_child)).

(** A port whose child has two bytes ready, one per probe. *)
Definition port_two_bytes : VirtualSerialPort.t ScriptedPTY.t :=
  port (ScriptedPTY.running [Ok (b "x"); Ok (b "y")]) silent.


(** What a client types on the raw port before it disconnects. *)
Definition typed : list bytes := [b "print(1)"; [CR]].

(** A port closed by an error while its child is still running, with
    bytes of the previous session pending. *)
Definition port_closed_running : VirtualSerialPort.t ScriptedPTY.t :=
  VirtualSerialPort.set_closed true port_pending.

(** [str.isspace] on the ASCII whitespace characters. *)
Definition ascii_isspace (c : Ascii.ascii) : bool :=
  let n := Ascii.nat_of_ascii c in
  (Nat.eqb n 32 || (Nat.leb 9 n && Nat.leb n 13) || (Nat.leb 28 n && Nat.leb n 31))%bool.

(** [mpbridge --mp-verbose -O -O -X heapsize=4M --micropython-args " -i  -c x"]
    with a path that contains a blank. *)
Definition namespace : CommandLine.Namespace :=
  CommandLine.mkNamespace (CommandLine.lit "/opt/micro python/micropython") 1 2
    [CommandLine.lit "heapsize=4M"] (CommandLine.lit " -i  -c x").

End Cases.

(* ===================================================================== *)
(** * Properties *)
(* ===================================================================== *)

(** ** Byte-string lemmas *)

Lemma nonempty_true_iff (data : bytes) : nonempty data = true <-> data <> [].
Proof. destruct data; simpl; split; intros; congruence. Qed.

Lemma nonempty_false_iff (data : bytes) : nonempty data = false <-> data = [].
Proof. destruct data; simpl; split; intros; congruence. Qed.

Lemma slice_to_pos (data : bytes) (n : Z) :
  0 <= n -> slice_to data n = firstn (Z.to_nat n) data.
Proof.
  intros Hn. unfold slice_to.
  destruct (Z.leb_spec 0 n); [reflexivity | lia].
Qed.

Lemma slice_from_pos (data : bytes) (n : Z) :
  0 <= n -> slice_from data n = skipn (Z.to_nat n) data.
Proof.
  intros Hn. unfold slice_from.
  destruct (Z.leb_spec 0 n); [reflexivity | lia].
Qed.



Lemma firstn_pos_nonempty {A} (k : nat) (l : list A) :
  (0 < k)%nat -> l <> [] -> firstn k l <> [].
Proof.
  intros Hk Hl. destruct k; [lia |]. destruct l; [congruence | simpl; congruence].
Qed.

(** The byte operations on small inputs, as Python evaluates them. *)

Example contains_substring : contains (b "raw") (b "a raw REPL") = true.
Proof. reflexivity. Qed.

Example contains_no_substring : contains (b ">>>") (b ">> >") = false.
Proof. reflexivity. Qed.

Example rstrip_trims_line_end : rstrip (b "exit" ++ [CR; LF] ++ b "> " ++ [CR; LF]) = b "exit" ++ [CR; LF] ++ b ">".
Proof. reflexivity. Qed.

Example replace_is_one_pass :
  Windows.normalize_crlf [CR; CR; CR; LF; x41; CR; CR; LF] = [CR; CR; LF; x41; CR; LF].
Proof. reflexivity. Qed.

Example filter_deletes_csi :
  Windows._filter_escape_sequences ([ESC] ++ b "[?1004h>>> " ++ [ESC] ++ b "[1t") = b ">>> ".
Proof. reflexivity. Qed.

Example filter_keeps_unfinished_csi :
  Windows._filter_escape_sequences ([ESC] ++ b "[12;3" ++ [ESC] ++ b "[cz")
  = [ESC] ++ b "[12;3z".
Proof. reflexivity. Qed.

Example slice_negative_size : slice_to (b "abcdef") (-2) = b "abcd".
Proof. reflexivity. Qed.

(** ** VirtualSerialPort *)

Module VirtualSerialPortFacts.
Import VirtualSerialPort Statements.

Section WithPTY.

Context {P : Type} `{BasePTYProcess P}.

(** With bytes pending, [read] is served from the buffer alone. *)
Lemma read_pending (self : t P) (size : Z) :
  pending_reboot_output self <> [] ->
  read size self =
    (Ok (slice_to (pending_reboot_output self) size),
     set_pending_reboot_output (slice_from (pending_reboot_output self) size) self).
Proof.
  intros Hp. unfold read.
  apply nonempty_true_iff in Hp. now rewrite Hp.
Qed.


Lemma write_in_raw_repl_open (self : t P) (data : bytes) :
  closed self = false ->
  in_raw_repl (snd (write data self)) = raw_repl_after_write data (in_raw_repl self).
Proof.
  intros Hc. unfold write, raw_repl_after_write. rewrite Hc.
  unfold try_except, on_pty, zoom.
  destruct (contains CTRL_A data); [| destruct (contains CTRL_B data)];
    simpl; destruct (pty_write data (_pty_process self)) as [[w | e] p']; reflexivity.
Qed.

(** (C6, amended) A [write] on a closed port returns 0 and changes
    nothing.  On an open port it sets [in_raw_repl] to true when the data
    contains 0x01; to false when the data contains 0x02 and no 0x01; and
    leaves it as it was otherwise. *)
Theorem write_tracks_raw_repl (self : t P) (d : bytes) :
  (closed self = true -> write d self = (Ok 0, self))
  /\ (closed self = false ->
      (contains CTRL_A d = true -> in_raw_repl (snd (write d self)) = true)
      /\ (contains CTRL_A d = false -> contains CTRL_B d = true ->
          in_raw_repl (snd (write d self)) = false)
      /\ (contains CTRL_A d = false -> contains CTRL_B d = false ->
          in_raw_repl (snd (write d self)) = in_raw_repl self)).
Proof.
  split.
  - intros Hc. unfold write. now rewrite Hc.
  - intros Hc. rewrite (write_in_raw_repl_open _ _ Hc). unfold raw_repl_after_write.
    repeat split; intros; repeat match goal with Hx : contains _ _ = _ |- _ => rewrite Hx; clear Hx end;
      reflexivity.
Qed.

(** (C9) For every n > 0, a closed port with a non-empty pending buffer
    still serves [read(n)] from the buffer, and the bytes returned are not
    empty; a closed port whose pending buffer is empty returns [b""] and
    stays as it is. *)
Theorem read_pending_precedes_closed (self : t P) (n : Z) :
  0 < n ->
  closed self = true ->
  (pending_reboot_output self <> [] ->
     fst (read n self) = Ok (firstn (Z.to_nat n) (pending_reboot_output self))
     /\ firstn (Z.to_nat n) (pending_reboot_output self) <> [])
  /\ (pending_reboot_output self = [] -> read n self = (Ok [], self)).
Proof.
  intros Hn Hc. split.
  - intros Hp. rewrite read_pending by assumption. simpl.
    rewrite slice_to_pos by lia. split; [reflexivity |].
    apply firstn_pos_nonempty; [lia | assumption].
  - intros Hp. unfold read. now rewrite Hp, Hc.
Qed.

Lemma update_raw_repl_state_spec (self : t P) (data : bytes) :
  _update_raw_repl_state_from_response data self =
    (Ok tt, set_in_raw_repl (raw_repl_after_response data (in_raw_repl self)) self).
Proof.
  unfold _update_raw_repl_state_from_response, raw_repl_after_response.
  destruct (contains RAW_REPL_PROMPT data); [reflexivity |].
  destruct (contains FRIENDLY_PROMPT data && in_raw_repl self); [reflexivity |].
  destruct self; reflexivity.
Qed.

Lemma read_pending_keeps_raw_repl (self : t P) (size : Z) :
  pending_reboot_output self <> [] ->
  in_raw_repl (snd (read size self)) = in_raw_repl self.
Proof. intros Hp. now rewrite read_pending. Qed.

Lemma update_in_waiting_keeps_raw_repl (self : t P) :
  in_raw_repl (snd (update_in_waiting self)) = in_raw_repl self.
Proof.
  unfold update_in_waiting. destruct (closed self); [reflexivity |].
  unfold try_except, bind, on_pty, zoom.
  destruct (pty_read 1 1 (_pty_process self)) as [[data | e] p']; simpl; [| reflexivity].
  destruct (nonempty data); reflexivity.
Qed.

(** When [read] changes [in_raw_repl], the buffer was empty, the port was
    open and the bytes returned came from a PTY read made by this call. *)
Lemma read_changes_raw_repl_only_fresh (self : t P) (size : Z) :
  in_raw_repl (snd (read size self)) <> in_raw_repl self ->
  pending_reboot_output self = [] /\ closed self = false
  /\ exists data p',
       pty_read size (timeout self) (_pty_process self) = (Ok data, p')
       /\ data <> []
       /\ fst (read size self) = Ok data
       /\ in_raw_repl (snd (read size self)) = raw_repl_after_response data (in_raw_repl self).
Proof.
  intros Hchg.
  destruct (pending_reboot_output self) as [| c pend] eqn:Hp.
  2:{ exfalso. apply Hchg. apply read_pending_keeps_raw_repl. rewrite Hp. discriminate. }
  split; [reflexivity |].
  revert Hchg. unfold read. rewrite Hp. simpl.
  destruct (closed self) eqn:Hc; [simpl; congruence |].
  intros Hchg. split; [reflexivity |]. revert Hchg.
  unfold try_except, bind, on_pty, zoom.
  destruct (pty_read size (timeout self) (_pty_process self)) as [[data | e] p'];
    [| simpl; congruence].
  destruct data as [| c data]; [simpl; congruence |].
  cbn [nonempty]. rewrite update_raw_repl_state_spec. simpl. intros Hchg.
  exists (c :: data), p'. repeat split; congruence.
Qed.

(** (C10) The raw-REPL detection on child output touches only bytes that
    [VirtualSerialPort.read] has just read from the PTY: (1) a [read]
    served from the pending buffer leaves [in_raw_repl] as it was;
    (2) [update_in_waiting] leaves it as it was, and so does the [read]
    that then serves the probed byte it put back; (3) whenever a [read]
    does change [in_raw_repl], the pending buffer was empty, the port was
    open, the bytes returned are exactly those a PTY read of this call
    produced, and the new value is the detection rule applied to them. *)
Theorem raw_repl_detection_only_on_fresh_reads (self : t P) (size : Z) :
  (pending_reboot_output self <> [] ->
     in_raw_repl (snd (read size self)) = in_raw_repl self)
  /\ in_raw_repl (snd (update_in_waiting self)) = in_raw_repl self
  /\ (pending_reboot_output (snd (update_in_waiting self)) <> [] ->
        in_raw_repl (snd (read size (snd (update_in_waiting self)))) = in_raw_repl self)
  /\ (in_raw_repl (snd (read size self)) <> in_raw_repl self ->
        pending_reboot_output self = [] /\ closed self = false
        /\ exists data p',
             pty_read size (timeout self) (_pty_process self) = (Ok data, p')
             /\ data <> []
             /\ fst (read size self) = Ok data
             /\ in_raw_repl (snd (read size self))
                = raw_repl_after_response data (in_raw_repl self)).
Proof.
  split; [| split; [| split]].
  - apply read_pending_keeps_raw_repl.
  - apply update_in_waiting_keeps_raw_repl.
  - intros Hp. rewrite read_pending_keeps_raw_repl by assumption.
    apply update_in_waiting_keeps_raw_repl.
  - apply read_changes_raw_repl_only_fresh.
Qed.

Lemma read_keeps_timeout (self : t P) (size : Z) :
  timeout (snd (read size self)) = timeout self.
Proof.
  unfold read. destruct (nonempty (pending_reboot_output self)); [reflexivity |].
  destruct (closed self); [reflexivity |].
  unfold try_except, bind, on_pty, zoom, modify, ret.
  destruct (pty_read size (timeout self) (_pty_process self)) as [[data | e] p']; [| reflexivity].
  destruct (nonempty data); [| reflexivity].
  rewrite update_raw_repl_state_spec. reflexivity.
Qed.

End WithPTY.
End VirtualSerialPortFacts.

(** ** WindowsPTYProcess *)

Module WindowsPTYFacts.
Import Windows WindowsPTY.

Lemma read_first_attempt (w : WinPTY) (O : bytes) (rest : list (result bytes)) (size timeout : Z) :
  wp_reads w = Ok O :: rest ->
  O <> [] ->
  fst (read size timeout (mkWindowsPTYProcess false w))
  = Ok (_filter_escape_sequences (normalize_crlf O)).
Proof.
  intros Hr HO. unfold read, try_except, bind, on_pty, zoom, lib_read. simpl.
  rewrite Hr. simpl. apply nonempty_true_iff in HO. rewrite HO. reflexivity.
Qed.

Lemma read_second_attempt (w : WinPTY) (O : bytes) (rest : list (result bytes)) (size timeout : Z) :
  wp_reads w = Ok [] :: Ok O :: rest ->
  O <> [] ->
  fst (read size timeout (mkWindowsPTYProcess false w))
  = Ok (_filter_escape_sequences (normalize_crlf O)).
Proof.
  intros Hr HO. unfold read, try_except, bind, on_pty, zoom, lib_read, sleep, ret. simpl.
  rewrite Hr. simpl. apply nonempty_true_iff in HO. rewrite HO. reflexivity.
Qed.

(** (C3, amended) For every non-empty output O that the library hands to
    [WindowsPTYProcess.read] on an open PTY, at the first attempt or at
    the retry after the timeout, the method returns
    filter_csi(normalize(O)): every [\r\r\n] found by one left-to-right
    pass is replaced by [\r\n] first, and the CSI sequences are deleted
    from the result of that. *)
Theorem windows_read_normalizes_then_filters
    (w : WinPTY) (O : bytes) (rest : list (result bytes)) (size timeout : Z) :
  O <> [] ->
  wp_reads w = Ok O :: rest \/ wp_reads w = Ok [] :: Ok O :: rest ->
  fst (read size timeout (mkWindowsPTYProcess false w))
  = Ok (_filter_escape_sequences (normalize_crlf O)).
Proof.
  intros HO [Hr | Hr].
  - eapply read_first_attempt; eassumption.
  - eapply read_second_attempt; eassumption.
Qed.

Lemma poll_exception (w : WinPTY) (e : exn) :
  wp_isalive w = Raise e ->
  poll (mkWindowsPTYProcess false w) = (Ok (Some 0), mkWindowsPTYProcess false w).
Proof.
  intros Ha. unfold poll, try_except, bind, on_pty, zoom, lib_isalive. simpl.
  rewrite Ha. destruct w; reflexivity.
Qed.

Lemma poll_exited (w : WinPTY) (status : option Z) :
  wp_isalive w = Ok false ->
  wp_exitstatus w = Ok status ->
  poll (mkWindowsPTYProcess false w) = (Ok status, mkWindowsPTYProcess false w).
Proof.
  intros Ha Hs.
  unfold poll, try_except, bind, on_pty, zoom, lib_isalive, lib_get_exitstatus. simpl.
  rewrite Ha. simpl. rewrite Hs. destruct w; reflexivity.
Qed.

End WindowsPTYFacts.

(** ** UnixPTYProcess *)

Module UnixPTYFacts.
Import UnixPTY.

(** The POSIX reader honours the size it is given. *)
Lemma unix_read_at_most_size (size timeout : Z) (self : UnixPTYProcess) (data : bytes) :
  0 <= size ->
  fst (read size timeout self) = Ok data ->
  Z.of_nat (length data) <= size.
Proof.
  intros Hsize. unfold read. destruct (_closed self); [intros [= <-]; simpl; lia |].
  unfold try_except_os_value, try_except, bind, on_fd, zoom, select_select, os_read.
  destruct (next_outcome (FdArrive []) (fd_script (_fd self))) as [[arrived |] script].
  - cbn [fst snd _fd fd_buffer]. destruct (nonempty (fd_buffer (_fd self) ++ arrived)).
    + cbn [fst snd _fd fd_buffer]. destruct (Z.ltb_spec size 0); [lia |].
      cbn [fst]. intros [= <-].
      pose proof (firstn_le_length (Z.to_nat size) (fd_buffer (_fd self) ++ arrived)). lia.
    + cbn [fst]. unfold ret. cbn [fst]. intros [= <-]. simpl. lia.
  - cbn [fst snd]. unfold bind, set_closed, modify, ret. cbn [fst]. intros [= <-]. simpl. lia.
Qed.

End UnixPTYFacts.

(** ** The redirector *)

Module RedirectorFacts.
Import Redirector Statements.

Section WithPTY.

Context {P : Type} `{BasePTYProcess P}.
Variable IS_WINDOWS : bool.
Variable kind : variant.

Lemma sends_refl (r : t P) : sends r r [].
Proof. intros Ha. split; [assumption | now rewrite app_nil_r]. Qed.

Lemma sends_trans (r1 r2 r3 : t P) (l1 l2 : list bytes) :
  sends r1 r2 l1 -> sends r2 r3 l2 -> sends r1 r3 (l1 ++ l2).
Proof.
  intros H12 H23 Ha. destruct (H23 Ha) as [Ha2 Hs3]. destruct (H12 Ha2) as [Ha1 Hs2].
  split; [assumption |]. now rewrite Hs3, Hs2, app_assoc.
Qed.

Lemma pty_only_sends (r r' : t P) : pty_only r r' -> sends r r' [].
Proof.
  intros [p ->] Ha. simpl in *. split; [assumption | now rewrite app_nil_r].
Qed.

Lemma pty_only_refl (r : t P) : pty_only r r.
Proof.
  exists (VirtualSerialPort._pty_process (serial r)).
  destruct r as [[? ? ? ? ? ? ?] ? ? ?]. reflexivity.
Qed.

Lemma pty_only_trans (r1 r2 r3 : t P) : pty_only r1 r2 -> pty_only r2 r3 -> pty_only r1 r3.
Proof. intros [p ->] [q ->]. exists q. reflexivity. Qed.

Lemma on_pty_process_pty_only {A} (m : M P A) (r : t P) :
  pty_only r (snd (on_pty_process m r)).
Proof.
  unfold on_pty_process, on_serial, VirtualSerialPort.on_pty, zoom.
  destruct (m (VirtualSerialPort._pty_process (serial r))) as [res p]. simpl.
  now exists p.
Qed.

(** [write_to_socket] never raises; it delivers its argument or marks the
    redirector dead. *)
Lemma write_to_socket_spec (data : bytes) (r : t P) :
  fst (write_to_socket data r) = Ok tt
  /\ serial (snd (write_to_socket data r)) = serial r
  /\ sends r (snd (write_to_socket data r)) [data].
Proof.
  unfold write_to_socket, try_except_socket, try_except, zoom, sendall, sends.
  destruct (next_outcome false (sock_send_fails (socket r))) as [fails script].
  destruct fails; simpl; repeat split; try discriminate; auto.
Qed.

Lemma _safe_send_spec (data : bytes) (r : t P) :
  fst (_safe_send kind data r) = Ok tt
  /\ serial (snd (_safe_send kind data r)) = serial r
  /\ sends r (snd (_safe_send kind data r)) [frame kind data].
Proof.
  unfold _safe_send, try_except_socket, try_except, _send_to_client, frame.
  destruct kind as [escape |].
  - destruct (write_to_socket_spec (escape data) r) as (Hf & Hs & Hsend).
    destruct (write_to_socket (escape data) r) as [[[] | e] r']; simpl in *;
      [auto | discriminate].
  - destruct (write_to_socket_spec data r) as (Hf & Hs & Hsend).
    destruct (write_to_socket data r) as [[[] | e] r']; simpl in *;
      [auto | discriminate].
Qed.

Lemma _read_banner_spec (r : t P) :
  (exists banner, fst (_read_banner r) = Ok banner)
  /\ pty_only r (snd (_read_banner r)).
Proof.
  unfold _read_banner, try_except.
  pose proof (on_pty_process_pty_only
                (pty_read MP_BRIDGE_READ_BUFFER_SIZE MP_BRIDGE_BANNER_READ_TIMEOUT) r) as Hp.
  destruct (on_pty_process _ r) as [[banner | e] r']; simpl in *; eauto.
Qed.

Lemma drain_loop_pty_only (attempts : nat) :
  forall (v : drain_vars) (chunks : list bytes) (r : t P),
    pty_only r (snd (drain_loop IS_WINDOWS attempts v chunks r)).
Proof.
  induction attempts as [| n IH]; intros v chunks r; simpl.
  - apply pty_only_refl.
  - unfold bind at 1. unfold sleep, ret at 1. unfold bind at 1.
    pose proof (on_pty_process_pty_only
                  (pty_read MP_BRIDGE_READ_BUFFER_SIZE MP_BRIDGE_DRAIN_TIMEOUT) r) as Hp.
    destruct (on_pty_process _ r) as [[chunk | e] r1]; simpl in *; [| assumption].
    destruct (drain_body IS_WINDOWS v chunk) as [v' [|]].
    + assumption.
    + eapply pty_only_trans; [exact Hp | apply IH].
Qed.

Lemma on_serial_sends {A} (m : M (VirtualSerialPort.t P) A) (r : t P) :
  sends r (snd (on_serial m r)) [].
Proof.
  unfold on_serial, zoom, sends. destruct (m (serial r)) as [res s']. simpl.
  intros Ha. split; [assumption | now rewrite app_nil_r].
Qed.

(** The [try] block of [_reenter_raw_repl]: when it completes, exactly the
    fabricated reply was sent; when it raises, nothing was sent and only
    the PTY was touched. *)
Lemma _reenter_raw_repl_try_spec (r r' : t P) (res : result unit) :
  _reenter_raw_repl_try IS_WINDOWS kind r = (res, r') ->
  match res with
  | Ok _ => sends r r' [frame kind MPREMOTE_RAW_REPL_SOFT_REBOOT]
  | Raise _ => pty_only r r'
  end.
Proof.
  unfold _reenter_raw_repl_try, bind, sleep, ret. intros E.
  pose proof (on_pty_process_pty_only (pty_write CTRL_A) r) as Hw.
  destruct (on_pty_process (pty_write CTRL_A) r) as [[n | e] r1]; cbn [fst snd] in *.
  2:{ inversion E; subst. assumption. }
  pose proof (drain_loop_pty_only max_attempts (mkDrain [] 0) [] r1) as Hd.
  destruct (drain_loop IS_WINDOWS max_attempts (mkDrain [] 0) [] r1) as [[vc | e] r2];
    cbn [fst snd] in *.
  2:{ inversion E; subst. eapply pty_only_trans; eassumption. }
  destruct (_safe_send_spec MPREMOTE_RAW_REPL_SOFT_REBOOT r2) as (Hf & _ & Hsend).
  destruct (_safe_send kind MPREMOTE_RAW_REPL_SOFT_REBOOT r2) as [[[] | e] r3];
    cbn [fst snd] in *; [| discriminate].
  pose proof (on_serial_sends (modify (VirtualSerialPort.set_in_raw_repl true)) r3) as Hm.
  unfold on_serial, zoom, modify in E, Hm. cbn [fst snd] in *.
  inversion E; subst.
  apply pty_only_sends in Hw, Hd.
  exact (sends_trans (sends_trans (sends_trans Hw Hd) Hsend) Hm).
Qed.

Lemma _reenter_raw_repl_except_spec (r r' : t P) (res : result unit) :
  _reenter_raw_repl_except kind r = (res, r') ->
  res = Ok tt
  /\ sends r r' [frame kind MPREMOTE_SOFT_REBOOT; frame kind MPREMOTE_RAW_REPL_SOFT_REBOOT].
Proof.
  unfold _reenter_raw_repl_except, bind. intros E.
  destruct (_safe_send_spec MPREMOTE_SOFT_REBOOT r) as (Hf1 & _ & Hs1).
  destruct (_safe_send kind MPREMOTE_SOFT_REBOOT r) as [[[] | e] r1];
    cbn [fst snd] in *; [| discriminate].
  destruct (_safe_send_spec MPREMOTE_RAW_REPL_SOFT_REBOOT r1) as (Hf2 & _ & Hs2).
  destruct (_safe_send kind MPREMOTE_RAW_REPL_SOFT_REBOOT r1) as [[[] | e] r2];
    cbn [fst snd] in *; [| discriminate].
  pose proof (on_serial_sends (modify (VirtualSerialPort.set_in_raw_repl true)) r2) as Hm.
  unfold on_serial, zoom, modify in E, Hm. cbn [fst snd] in *.
  inversion E; subst. split; [reflexivity |].
  exact (sends_trans (sends_trans Hs1 Hs2) Hm).
Qed.

(** [_reenter_raw_repl] never raises.  It sends the fabricated reply alone
    when its [try] block completes, and the friendly banner followed by
    the fabricated reply when the block raises. *)
Lemma _reenter_raw_repl_spec (r r' : t P) (res : result unit) :
  _reenter_raw_repl IS_WINDOWS kind r = (res, r') ->
  res = Ok tt
  /\ match fst (_reenter_raw_repl_try IS_WINDOWS kind r) with
     | Ok _ => sends r r' [frame kind MPREMOTE_RAW_REPL_SOFT_REBOOT]
     | Raise _ =>
         sends r r' [frame kind MPREMOTE_SOFT_REBOOT;
                     frame kind MPREMOTE_RAW_REPL_SOFT_REBOOT]
     end.
Proof.
  unfold _reenter_raw_repl, try_except. intros E.
  pose proof (@_reenter_raw_repl_try_spec r) as Ht.
  destruct (_reenter_raw_repl_try IS_WINDOWS kind r) as [[[] | e] r1]; cbn [fst snd] in *.
  - inversion E; subst. split; [reflexivity |]. exact (Ht _ _ eq_refl).
  - destruct (_reenter_raw_repl_except_spec _ E) as (Hf & Hs).
    split; [assumption |].
    specialize (Ht _ _ eq_refl). apply pty_only_sends in Ht.
    exact (sends_trans Ht Hs).
Qed.


Lemma has_process_exited_in_raw_repl (r : t P) :
  VirtualSerialPort.in_raw_repl (serial (snd (on_serial VirtualSerialPort.has_process_exited r)))
  = VirtualSerialPort.in_raw_repl (serial r).
Proof.
  unfold on_serial, zoom, VirtualSerialPort.has_process_exited, bind,
    VirtualSerialPort.on_pty, zoom.
  destruct (pty_is_alive (VirtualSerialPort._pty_process (serial r))) as [[a | e] p'];
    reflexivity.
Qed.

(** The steps of a [_handle_process_exit] that returns [True]. *)
Lemma _handle_process_exit_true (r r' : t P) :
  _handle_process_exit IS_WINDOWS kind r = (Ok true, r') ->
  exists r0 rb rc rd,
    on_serial VirtualSerialPort.has_process_exited r = (Ok true, r0)
    /\ rb = (if VirtualSerialPort.in_raw_repl (serial r0)
             then set_restarting true r0
             else snd (_safe_send kind MPREMOTE_SOFT_REBOOT (set_restarting true r0)))
    /\ on_serial VirtualSerialPort.do_restart rb = (Ok true, rc)
    /\ _complete_restart IS_WINDOWS kind (VirtualSerialPort.in_raw_repl (serial r0)) rc
       = (Ok tt, rd)
    /\ r' = set_restarting false rd.
Proof.
  unfold _handle_process_exit, bind, try_finally, try_except, gets, modify, ret.
  intros E.
  destruct (on_serial VirtualSerialPort.has_process_exited r) as [[exited | e] r0];
    [| discriminate].
  destruct exited; cbn [negb] in E; [| discriminate].
  exists r0. cbn [serial set_restarting] in E.
  destruct (VirtualSerialPort.in_raw_repl (serial r0)) eqn:Hraw; cbn [negb] in E.
  - exists (set_restarting true r0).
    destruct (on_serial VirtualSerialPort.can_restart (set_restarting true r0))
      as [[can | e] r1] eqn:Ecan.
    2:{ inversion E. }
    assert (r1 = set_restarting true r0) as ->.
    { unfold on_serial, zoom, VirtualSerialPort.can_restart, gets in Ecan.
      inversion Ecan. destruct r0 as [[] ? ? ?]. reflexivity. }
    destruct can; cbn [negb] in E; [| inversion E].
    destruct (on_serial VirtualSerialPort.do_restart (set_restarting true r0))
      as [[restarted | e] rc]; [| inversion E].
    destruct restarted; cbn [negb] in E; [| inversion E].
    destruct (_complete_restart IS_WINDOWS kind true rc) as [[[] | e] rd] eqn:Ecr;
      [| inversion E].
    exists rc, rd. inversion E. auto.
  - destruct (_safe_send_spec MPREMOTE_SOFT_REBOOT (set_restarting true r0)) as (Hf & _ & _).
    destruct (_safe_send kind MPREMOTE_SOFT_REBOOT (set_restarting true r0))
      as [[[] | e] rb]; cbn [fst snd] in *; [| discriminate].
    exists rb.
    destruct (on_serial VirtualSerialPort.can_restart rb) as [[can | e] r1] eqn:Ecan.
    2:{ inversion E. }
    assert (r1 = rb) as ->.
    { unfold on_serial, zoom, VirtualSerialPort.can_restart, gets in Ecan.
      inversion Ecan. destruct rb as [[] ? ? ?]. reflexivity. }
    destruct can; cbn [negb] in E; [| inversion E].
    destruct (on_serial VirtualSerialPort.do_restart rb)
      as [[restarted | e] rc]; [| inversion E].
    destruct restarted; cbn [negb] in E; [| inversion E].
    destruct (_complete_restart IS_WINDOWS kind false rc) as [[[] | e] rd] eqn:Ecr;
      [| inversion E].
    exists rc, rd. inversion E. auto.
Qed.

Lemma set_restarting_sends (v : bool) (r : t P) : sends r (set_restarting v r) [].
Proof. intros Ha. simpl in *. split; [assumption | now rewrite app_nil_r]. Qed.

Lemma on_serial_sends_eq {A} (m : M (VirtualSerialPort.t P) A) (r r' : t P) (res : result A) :
  on_serial m r = (res, r') -> sends r r' [].
Proof. intros E. pose proof (on_serial_sends m r) as Hs. now rewrite E in Hs. Qed.

Lemma _read_banner_eq (r : t P) :
  exists banner r2, _read_banner r = (Ok banner, r2) /\ sends r r2 [].
Proof.
  destruct (_read_banner_spec r) as ([banner Hb] & Hp).
  destruct (_read_banner r) as [res r2] eqn:E. cbn [fst snd] in *. subst res.
  exists banner, r2. split; [reflexivity | now apply pty_only_sends].
Qed.

(** (C1, amended) For every child exit that [_handle_process_exit]
    handles by a restart (it returns [True]) with the session still alive
    afterwards, the payloads handed to the client during the call are
    exactly these, each framed by the variant.  If [in_raw_repl] was false
    when the exit was observed: the friendly banner [soft reboot\r\n]
    once, followed by the new child's startup banner when that is not
    empty.  If [in_raw_repl] was true: the fabricated raw-REPL reply alone
    when the [try] block of [_reenter_raw_repl] completes, and the
    friendly banner followed by the fabricated reply when that block
    raises.  On every path of the raw case the fabricated reply is sent
    exactly once, as the last payload. *)
Theorem soft_reboot_banners (r r' : t P) :
  _handle_process_exit IS_WINDOWS kind r = (Ok true, r') ->
  alive r' = true ->
  let sent := sock_sent (socket r) in
  let sent' := sock_sent (socket r') in
  (VirtualSerialPort.in_raw_repl (serial r) = false ->
     exists banner,
       startup_banner kind r = Ok banner
       /\ sent' = sent ++ frame kind MPREMOTE_SOFT_REBOOT
                         :: (if nonempty banner then [frame kind banner] else []))
  /\ (VirtualSerialPort.in_raw_repl (serial r) = true ->
        match fst (_reenter_raw_repl_try IS_WINDOWS kind (reentry_state r)) with
        | Ok _ => sent' = sent ++ [frame kind MPREMOTE_RAW_REPL_SOFT_REBOOT]
        | Raise _ =>
            sent' = sent ++ [frame kind MPREMOTE_SOFT_REBOOT;
                             frame kind MPREMOTE_RAW_REPL_SOFT_REBOOT]
        end).
Proof.
  intros E Halive sent sent'. subst sent sent'.
  destruct (_handle_process_exit_true _ E) as (r0 & rb & rc & rd & E0 & Eb & Ec & Ed & ->).
  cbn [alive socket set_restarting] in *.
  pose proof (has_process_exited_in_raw_repl r) as Hraw0. rewrite E0 in Hraw0.
  cbn [snd] in Hraw0.
  pose proof (on_serial_sends_eq _ _ E0) as S0.
  pose proof (on_serial_sends_eq _ _ Ec) as Sc.
  unfold _complete_restart, bind, sleep, ret in Ed.
  destruct (_read_banner_eq rc) as (banner & r2 & Eban & Sban).
  rewrite Eban in Ed.
  split; intros Hraw; rewrite Hraw0, Hraw in *.
  - (* friendly mode *)
    exists banner. unfold startup_banner. rewrite E0. cbn [snd]. rewrite <- Eb, Ec.
    cbn [snd]. rewrite Eban. split; [reflexivity |].
    destruct (_safe_send_spec MPREMOTE_SOFT_REBOOT (set_restarting true r0)) as (_ & _ & Sb).
    rewrite <- Eb in Sb.
    pose proof (sends_trans (sends_trans (sends_trans S0 (set_restarting_sends true r0)) Sb)
                            (sends_trans Sc Sban)) as Spre.
    rewrite !app_nil_r in Spre. cbn [app] in Spre.
    destruct (nonempty banner).
    + destruct (_safe_send_spec banner r2) as (_ & _ & Slast).
      rewrite Ed in Slast. cbn [snd] in Slast.
      destruct (sends_trans Spre Slast Halive) as [_ Hsent]. exact Hsent.
    + inversion Ed; subst rd.
      destruct (Spre Halive) as [_ Hsent]. exact Hsent.
  - (* raw REPL *)
    assert (Hre : reentry_state r = r2).
    { unfold reentry_state. rewrite E0. cbn [snd]. rewrite <- Eb, Ec. cbn [snd].
      now rewrite Eban. }
    rewrite Hre.
    pose proof (sends_trans (sends_trans (sends_trans S0 (set_restarting_sends true r0))
                                         (eq_ind_r (fun x => sends x rc []) Sc (eq_sym Eb)))
                            Sban) as Spre.
    cbn [app] in Spre.
    destruct (_reenter_raw_repl_spec _ Ed) as (_ & Hre2).
    destruct (fst (_reenter_raw_repl_try IS_WINDOWS kind r2)).
    + destruct (sends_trans Spre Hre2 Halive) as [_ Hsent]. exact Hsent.
    + destruct (sends_trans Spre Hre2 Halive) as [_ Hsent]. exact Hsent.
Qed.

(** *** The drain loop *)

Lemma drain_loop_run (attempts : nat) :
  forall (v : drain_vars) (cs : list bytes) (r : t P) v' cs' r',
    drain_loop IS_WINDOWS attempts v cs r = (Ok (v', cs'), r') ->
    exists new,
      cs' = cs ++ new
      /\ (length new <= attempts)%nat
      /\ v' = fold_left (drain_step IS_WINDOWS) new v
      /\ (forall pre c post, new = pre ++ c :: post -> post <> [] ->
            snd (drain_body IS_WINDOWS (fold_left (drain_step IS_WINDOWS) pre v) c) = false)
      /\ (length new = attempts
          \/ exists pre c, new = pre ++ [c]
                /\ snd (drain_body IS_WINDOWS (fold_left (drain_step IS_WINDOWS) pre v) c) = true).
Proof.
  induction attempts as [| n IH]; intros v cs r v' cs' r' E.
  - cbn [drain_loop] in E. unfold ret in E. inversion E; subst.
    exists []. rewrite app_nil_r. repeat split; auto.
    intros pre c post Hnew. destruct pre; discriminate.
  - cbn [drain_loop] in E. unfold bind, sleep, ret in E.
    destruct (on_pty_process (pty_read MP_BRIDGE_READ_BUFFER_SIZE MP_BRIDGE_DRAIN_TIMEOUT) r)
      as [[chunk | e] r1]; [| discriminate].
    destruct (drain_body IS_WINDOWS v chunk) as [v1 brk] eqn:Eb.
    destruct brk.
    + inversion E; subst. exists [chunk]. repeat split.
      * simpl. lia.
      * simpl. unfold Statements.drain_step. now rewrite Eb.
      * intros pre c post Hnew Hpost. destruct pre as [| x pre].
        -- inversion Hnew; subst. congruence.
        -- inversion Hnew. destruct pre; discriminate.
      * right. exists [], chunk. split; [reflexivity |]. simpl. now rewrite Eb.
    + destruct (IH _ _ _ _ _ _ E) as (new & Hcs & Hlen & Hv & Hpre & Hlast).
      exists (chunk :: new).
      assert (Hstep : (drain_step IS_WINDOWS) v chunk = v1) by (unfold Statements.drain_step; now rewrite Eb).
      repeat split.
      * rewrite Hcs, <- app_assoc. reflexivity.
      * simpl. lia.
      * simpl. now rewrite Hstep.
      * intros pre c post Hnew Hpost. destruct pre as [| x pre].
        -- cbn [app] in Hnew. injection Hnew as Hc _. rewrite <- Hc.
           simpl. now rewrite Eb.
        -- cbn [app] in Hnew. injection Hnew as Hc Hn. rewrite <- Hc.
           simpl. rewrite Hstep. eapply Hpre; eauto.
      * destruct Hlast as [Hl | (pre & c & Hn & Hb)].
        -- left. simpl. lia.
        -- right. exists (chunk :: pre), c. split.
           ++ now rewrite Hn.
           ++ simpl. now rewrite Hstep.
Qed.

Lemma fold_drain_step (chunks : list bytes) :
  forall v,
    fold_left (drain_step IS_WINDOWS) chunks v
    = mkDrain (accumulated v ++ concat chunks)
              (fold_left (fun e chunk => if nonempty chunk then 0 else e + 1)
                         chunks (empty_reads v)).
Proof.
  induction chunks as [| c chunks IH]; intros v.
  - simpl. rewrite app_nil_r. destruct v; reflexivity.
  - cbn [fold_left concat]. rewrite IH. unfold Statements.drain_step, drain_body.
    destruct c as [| x c].
    + cbn [nonempty app].
      destruct ((max_empty_reads IS_WINDOWS <? empty_reads v + 1) && nonempty (accumulated v));
        [reflexivity |].
      destruct (max_empty_reads IS_WINDOWS * 2 <? empty_reads v + 1); reflexivity.
    + cbn [nonempty].
      destruct (contains RAW_REPL_PROMPT (accumulated v ++ x :: c)
                && endswith (b ">") (rstrip (accumulated v ++ x :: c)));
        cbn [fst accumulated empty_reads]; now rewrite <- app_assoc.
Qed.

Lemma fold_drain_step_init (chunks : list bytes) :
  fold_left (drain_step IS_WINDOWS) chunks (mkDrain [] 0)
  = mkDrain (concat chunks) (trailing_empty chunks).
Proof. rewrite fold_drain_step. reflexivity. Qed.

Lemma trailing_empty_snoc (chunks : list bytes) (c : bytes) :
  trailing_empty (chunks ++ [c])
  = if nonempty c then 0 else trailing_empty chunks + 1.
Proof. unfold trailing_empty. rewrite fold_left_app. reflexivity. Qed.

Lemma trailing_empty_nonneg (chunks : list bytes) : 0 <= trailing_empty chunks.
Proof.
  induction chunks as [| c chunks IH] using rev_ind.
  - reflexivity.
  - rewrite trailing_empty_snoc. destruct (nonempty c); lia.
Qed.

Lemma drain_body_stops_after (pre : list bytes) (c : bytes) :
  snd (drain_body IS_WINDOWS (fold_left (drain_step IS_WINDOWS) pre (mkDrain [] 0)) c)
  = stops_after IS_WINDOWS (pre ++ [c]).
Proof.
  rewrite fold_drain_step_init. unfold stops_after, drain_body, prompt_seen.
  rewrite trailing_empty_snoc, concat_app. cbn [concat accumulated empty_reads].
  rewrite app_nil_r.
  pose proof (trailing_empty_nonneg pre) as Hnn.
  destruct c as [| x c]; cbn [nonempty].
  - rewrite app_nil_r.
    destruct (Z.eqb_spec (trailing_empty pre + 1) 0); [lia |].
    destruct ((max_empty_reads IS_WINDOWS <? trailing_empty pre + 1) && nonempty (concat pre));
      [reflexivity |].
    destruct (max_empty_reads IS_WINDOWS * 2 <? trailing_empty pre + 1); reflexivity.
  - cbn [Z.eqb].
    destruct (contains RAW_REPL_PROMPT (concat pre ++ x :: c)
              && endswith (b ">") (rstrip (concat pre ++ x :: c))); reflexivity.
Qed.

(** (C7, amended) The drain loop of [_reenter_raw_repl] always ends,
    after at least one and at most 50 PTY reads, having touched nothing
    but the PTY.  When no read raises, it has accumulated the
    concatenation of the chunks read, and it ends exactly at the first
    read after which one of these holds: (a) the chunk just read is not
    empty and the accumulated bytes contain [raw REPL; CTRL-B to exit]
    and, right-trimmed, end in [>]; (b) the chunk just read is empty and
    the run of consecutive empty reads is longer than [max_empty_reads]
    (5 on POSIX, 10 on Windows) with some byte accumulated, or longer than
    twice [max_empty_reads] with none; (c) it was the 50th read. *)
Theorem drain_loop_stops (r : t P) :
  max_empty_reads IS_WINDOWS = (if IS_WINDOWS then 10 else 5)
  /\ exists res r',
       drain_loop IS_WINDOWS max_attempts (mkDrain [] 0) [] r = (res, r')
       /\ pty_only r r'
       /\ match res with
          | Raise _ => True
          | Ok (v, chunks) =>
              (0 < length chunks <= 50)%nat
              /\ accumulated v = concat chunks
              /\ (forall k, (0 < k < length chunks)%nat ->
                    stops_after IS_WINDOWS (firstn k chunks) = false)
              /\ (stops_after IS_WINDOWS chunks = true \/ length chunks = 50%nat)
          end.
Proof.
  split; [reflexivity |].
  destruct (drain_loop IS_WINDOWS max_attempts (mkDrain [] 0) [] r) as [res r'] eqn:E.
  exists res, r'. split; [reflexivity |]. split.
  { pose proof (drain_loop_pty_only max_attempts (mkDrain [] 0) [] r) as Hp.
    now rewrite E in Hp. }
  destruct res as [[v chunks] | e]; [| exact I].
  destruct (drain_loop_run _ _ _ _ E) as (new & Hcs & Hlen & Hv & Hpre & Hlast).
  cbn [app] in Hcs. subst new. change max_attempts with 50%nat in *.
  assert (Hstop : stops_after IS_WINDOWS chunks = true \/ length chunks = 50%nat).
  { destruct Hlast as [Hl | (pre & c & Hn & Hb)]; [now right | left].
    rewrite drain_body_stops_after in Hb. now rewrite Hn. }
  repeat split.
  - destruct Hlast as [Hl | (pre & c & Hn & Hb)]; [lia |].
    rewrite Hn, length_app. simpl. lia.
  - assumption.
  - rewrite Hv, fold_drain_step_init. reflexivity.
  - intros k [Hk0 Hk].
    assert (Hne : firstn k chunks <> []).
    { destruct k; [lia |]. destruct chunks; [simpl in Hk; lia | discriminate]. }
    destruct (exists_last Hne) as (pre & c & Hfirst).
    rewrite Hfirst, <- drain_body_stops_after.
    apply Hpre with (post := skipn k chunks).
    + rewrite <- (firstn_skipn k chunks) at 1. rewrite Hfirst, <- app_assoc. reflexivity.
    + intros Hnil. apply (f_equal (@length _)) in Hnil.
      rewrite length_skipn in Hnil. simpl in Hnil. lia.
  - assumption.
Qed.

(** *** The reader flow *)

Lemma _handle_process_exit_alive (r : t P) (p1 : P) :
  pty_is_alive (VirtualSerialPort._pty_process (serial r)) = (Ok true, p1) ->
  _handle_process_exit IS_WINDOWS kind r
  = (Ok false, set_serial (VirtualSerialPort.set_pty_process p1 (serial r)) r).
Proof.
  intros Ha.
  unfold _handle_process_exit, bind, on_serial, zoom, VirtualSerialPort.has_process_exited,
    bind, VirtualSerialPort.on_pty, zoom, ret.
  rewrite Ha. reflexivity.
Qed.

Lemma _send_to_client_spec (data : bytes) (r : t P) :
  fst (_send_to_client kind data r) = Ok tt
  /\ serial (snd (_send_to_client kind data r)) = serial r
  /\ sends r (snd (_send_to_client kind data r)) [frame kind data].
Proof.
  unfold _send_to_client, frame. destruct kind; apply write_to_socket_spec.
Qed.

(** An iteration with the child alive: the liveness poll, then
    [serial.read(4096)], then the delivery of what was read. *)
Lemma reader_iteration_after_read (r : t P) (p1 : P) :
  pty_is_alive (VirtualSerialPort._pty_process (serial r)) = (Ok true, p1) ->
  exists res port',
    VirtualSerialPort.read MP_BRIDGE_READ_BUFFER_SIZE
      (VirtualSerialPort.set_pty_process p1 (serial r)) = (res, port')
    /\ serial (snd (reader_iteration IS_WINDOWS kind r)) = port'
    /\ match res with
       | Ok data =>
           sends r (snd (reader_iteration IS_WINDOWS kind r))
                 (if nonempty data then [frame kind data] else [])
       | Raise _ => True
       end.
Proof.
  intros Ha. unfold reader_iteration, try_except, bind.
  rewrite (_handle_process_exit_alive _ Ha).
  unfold on_serial, zoom. cbn [serial set_serial].
  destruct (VirtualSerialPort.read MP_BRIDGE_READ_BUFFER_SIZE
              (VirtualSerialPort.set_pty_process p1 (serial r))) as [[data | e] port'].
  2:{ exists (Raise e), port'. cbn [fst snd serial set_serial]. auto. }
  exists (Ok data), port'. split; [reflexivity |].
  destruct (nonempty data).
  - match goal with
    | |- context [_send_to_client kind data ?r1] =>
        destruct (_send_to_client_spec data r1) as (Hf & Hs & Hsend);
        destruct (_send_to_client kind data r1) as [[[] | e] r2]
    end; cbn [fst snd serial set_serial] in *; [| discriminate].
    split; [exact Hs |].
    intros Hal. destruct (Hsend Hal) as [Hal1 Hsent]. cbn [alive socket set_serial] in *.
    split; assumption.
  - unfold ret. cbn [fst snd serial set_serial]. split; [reflexivity |].
    intros Hal. cbn [alive socket set_serial] in *. split; [assumption | now rewrite app_nil_r].
Qed.

(** (C4, amended) In every iteration of the reader flow in which the
    child has not exited, the reader calls [VirtualSerialPort.read(4096)].
    Bytes pending in the port are served first: at most 4096 of them go to
    the client and the PTY is not read.  Otherwise, on an open port, the
    PTY is read exactly once, with size 4096 and the timeout stored in the
    port, which the iteration leaves as it is.  That timeout is 100 ms in
    the port that [main] constructs; 10 ms is only the constructor's
    default. *)
Theorem reader_iteration_read (r : t P) (p1 : P) :
  pty_is_alive (VirtualSerialPort._pty_process (serial r)) = (Ok true, p1) ->
  let port := serial r in
  let pending := VirtualSerialPort.pending_reboot_output port in
  let r' := snd (reader_iteration IS_WINDOWS kind r) in
  (pending <> [] ->
     let data := firstn (Z.to_nat MP_BRIDGE_READ_BUFFER_SIZE) pending in
     VirtualSerialPort._pty_process (serial r') = p1
     /\ sends r r' [frame kind data]
     /\ Z.of_nat (length data) <= 4096)
  /\ (pending = [] -> VirtualSerialPort.closed port = false ->
       VirtualSerialPort._pty_process (serial r')
       = snd (pty_read 4096 (VirtualSerialPort.timeout port) p1))
  /\ VirtualSerialPort.timeout (serial r') = VirtualSerialPort.timeout port
  /\ (forall pty0 spawn,
        VirtualSerialPort.timeout (Main.virtual_serial pty0 spawn) = 100)
  /\ MP_BRIDGE_READ_TIMEOUT = 10.
Proof.
  intros Ha port pending r'. subst port pending r'.
  destruct (reader_iteration_after_read _ Ha) as (res & vs' & Eread & Hser & Hsend).
  rewrite Hser. clear Hser.
  set (port1 := VirtualSerialPort.set_pty_process p1 (serial r)) in *.
  split; [| split; [| split; [| split; reflexivity]]].
  - intros Hp data.
    rewrite VirtualSerialPortFacts.read_pending in Eread by exact Hp.
    rewrite slice_to_pos, slice_from_pos in Eread by (unfold MP_BRIDGE_READ_BUFFER_SIZE; lia).
    pose proof (eq_sym (f_equal fst Eread)) as Hres.
    pose proof (eq_sym (f_equal snd Eread)) as Hport.
    lazy beta iota delta [fst snd] in Hres, Hport. subst res vs'. clear Eread.
    lazy beta iota in Hsend.
    change (VirtualSerialPort.pending_reboot_output port1)
      with (VirtualSerialPort.pending_reboot_output (serial r)) in *.
    fold data in Hsend.
    assert (Hd : nonempty data = true).
    { apply nonempty_true_iff. apply firstn_pos_nonempty; [| exact Hp].
      unfold MP_BRIDGE_READ_BUFFER_SIZE. lia. }
    rewrite Hd in Hsend.
    split; [reflexivity | split; [exact Hsend |]].
    pose proof (firstn_le_length (Z.to_nat MP_BRIDGE_READ_BUFFER_SIZE)
                  (VirtualSerialPort.pending_reboot_output (serial r))) as Hle.
    fold data in Hle. unfold MP_BRIDGE_READ_BUFFER_SIZE in Hle. lia.
  - intros Hp Hc.
    unfold VirtualSerialPort.read in Eread.
    cbn [port1 VirtualSerialPort.pending_reboot_output VirtualSerialPort.set_pty_process
         VirtualSerialPort.closed VirtualSerialPort.timeout
         VirtualSerialPort._pty_process] in Eread.
    rewrite Hp, Hc in Eread. cbn [nonempty] in Eread.
    unfold try_except, bind, VirtualSerialPort.on_pty, zoom, modify, ret in Eread.
    change (VirtualSerialPort._pty_process port1) with p1 in Eread.
    change MP_BRIDGE_READ_BUFFER_SIZE with 4096 in Eread.
    destruct (pty_read 4096 (VirtualSerialPort.timeout (serial r)) p1) as [[data | e] p2].
    + destruct (nonempty data).
      * rewrite VirtualSerialPortFacts.update_raw_repl_state_spec in Eread.
        inversion Eread. reflexivity.
      * inversion Eread. reflexivity.
    + inversion Eread. reflexivity.
  - pose proof (VirtualSerialPortFacts.read_keeps_timeout port1 MP_BRIDGE_READ_BUFFER_SIZE) as Ht.
    rewrite Eread in Ht. exact Ht.
Qed.

(** *** A restart that succeeds *)

Lemma _complete_restart_returns (was_in_raw_repl : bool) (r : t P) :
  fst (_complete_restart IS_WINDOWS kind was_in_raw_repl r) = Ok tt.
Proof.
  unfold _complete_restart, bind, sleep, ret.
  destruct (_read_banner_eq r) as (banner & r2 & Eban & _). rewrite Eban.
  destruct was_in_raw_repl.
  - destruct (_reenter_raw_repl IS_WINDOWS kind r2) as [res r3] eqn:E.
    now destruct (_reenter_raw_repl_spec _ E) as [-> _].
  - destruct (nonempty banner); [| reflexivity].
    apply _safe_send_spec.
Qed.

(** With the child gone and a restart callback that produces a new child,
    [_handle_process_exit] runs the whole restart and returns [True]. *)
Lemma _handle_process_exit_restarts (r r0 : t P)
    (callback : VirtualSerialPort.RestartCallback P) (fresh : P) :
  on_serial VirtualSerialPort.has_process_exited r = (Ok true, r0) ->
  VirtualSerialPort.restart_callback (serial r0) = Some callback ->
  callback (VirtualSerialPort._pty_process (serial r0)) = Ok (Some fresh) ->
  fst (_handle_process_exit IS_WINDOWS kind r) = Ok true.
Proof.
  intros E0 Hcb Hfresh.
  unfold _handle_process_exit, bind. rewrite E0. cbn [negb].
  unfold modify at 1, try_finally, try_except, gets. cbn [serial set_restarting].
  set (r1 := set_restarting true r0).
  assert (Hser : forall rb, serial rb = serial r1 ->
            on_serial VirtualSerialPort.can_restart rb = (Ok true, rb)
            /\ exists rc, on_serial VirtualSerialPort.do_restart rb = (Ok true, rc)).
  { intros rb Hrb. change (serial r1) with (serial r0) in Hrb. split.
    - unfold on_serial, zoom, VirtualSerialPort.can_restart, gets.
      rewrite Hrb, Hcb. rewrite <- Hrb. destruct rb as [[] ? ? ?]. reflexivity.
    - unfold on_serial, zoom, VirtualSerialPort.do_restart.
      rewrite Hrb, Hcb, Hfresh. eauto. }
  destruct (VirtualSerialPort.in_raw_repl (serial r0)) eqn:Hraw; cbn [negb].
  - unfold ret at 1.
    destruct (Hser r1 eq_refl) as (Hcan & rc & Hdo).
    rewrite Hcan. cbn [negb]. rewrite Hdo. cbn [negb].
    pose proof (_complete_restart_returns true rc) as Hc.
    destruct (_complete_restart IS_WINDOWS kind true rc) as [res rd].
    cbn [fst] in Hc. subst res. reflexivity.
  - destruct (_safe_send_spec MPREMOTE_SOFT_REBOOT r1) as (Hf & Hs & _).
    destruct (_safe_send kind MPREMOTE_SOFT_REBOOT r1) as [res rb].
    cbn [fst snd] in Hf, Hs. subst res.
    destruct (Hser rb Hs) as (Hcan & rc & Hdo).
    rewrite Hcan. cbn [negb]. rewrite Hdo. cbn [negb].
    pose proof (_complete_restart_returns false rc) as Hc.
    destruct (_complete_restart IS_WINDOWS kind false rc) as [res rd].
    cbn [fst] in Hc. subst res. reflexivity.
Qed.

End WithPTY.
End RedirectorFacts.

(** ** Child exit on Windows *)

Module WindowsSessionFacts.
Import WindowsPTY Redirector.

Lemma has_process_exited_windows (r : Redirector.t WindowsPTYProcess) (w : WinPTY) :
  VirtualSerialPort._pty_process (serial r) = mkWindowsPTYProcess false w ->
  fst (poll (mkWindowsPTYProcess false w)) = Ok (Some 0) ->
  snd (poll (mkWindowsPTYProcess false w)) = mkWindowsPTYProcess false w ->
  on_serial VirtualSerialPort.has_process_exited r = (Ok true, r).
Proof.
  intros Hpty Hf Hs.
  unfold on_serial, zoom, VirtualSerialPort.has_process_exited, bind,
    VirtualSerialPort.on_pty, zoom.
  rewrite Hpty. cbn [pty_is_alive WindowsPTYProcess_pty]. unfold is_alive, bind.
  destruct (poll (mkWindowsPTYProcess false w)) as [res p']. cbn [fst snd] in *. subst.
  unfold ret. cbn [negb fst snd]. rewrite <- Hpty.
  destruct r as [[] ? ? ?]. reflexivity.
Qed.

Lemma _safe_send_set_serial (kind : variant) (data : bytes)
    (port : VirtualSerialPort.t WindowsPTYProcess) (r : Redirector.t WindowsPTYProcess) :
  _safe_send kind data (set_serial port r)
  = (fst (_safe_send kind data r), set_serial port (snd (_safe_send kind data r))).
Proof.
  unfold _safe_send, try_except_socket, try_except, _send_to_client, write_to_socket,
    try_except_socket, try_except, zoom, sendall, modify, ret, raise.
  destruct kind as [escape |]; cbn [socket set_serial];
    destruct (next_outcome false (sock_send_fails (socket r))) as [fails script];
    destruct fails; reflexivity.
Qed.

(** The part of [_handle_process_exit] after the exit test depends on the
    old PTY object only through the restart callback. *)
Lemma _handle_process_exit_forgets_old_pty (kind : variant)
    (r : Redirector.t WindowsPTYProcess) (old0 fresh : WindowsPTYProcess) :
  VirtualSerialPort.restart_callback (serial r)
  = Some (Main.process_manager_restart (Ok fresh)) ->
  let r0 := set_serial (VirtualSerialPort.set_pty_process old0 (serial r)) r in
  on_serial VirtualSerialPort.has_process_exited r = (Ok true, r) ->
  on_serial VirtualSerialPort.has_process_exited r0 = (Ok true, r0) ->
  _handle_process_exit true kind r = _handle_process_exit true kind r0.
Proof.
  intros Hcb r0 E E0.
  unfold _handle_process_exit, bind. rewrite E, E0. cbn [negb].
  subst r0. destruct r as [[pty tmo iw cb raw pend cl] [sent fails] al rs].
  cbn [serial VirtualSerialPort.restart_callback] in Hcb. subst cb. clear E E0.
  destruct raw, kind as [escape |], fails as [| [|] fails];
    cbv beta iota zeta delta -[_complete_restart MPREMOTE_SOFT_REBOOT];
    reflexivity.
Qed.

(** (C8, amended) On Windows an exception raised while polling the child
    is not told apart from the child having exited with status 0: [poll]
    returns 0 for both, and with the restart callback of [main] (and a
    spawn that succeeds) [_handle_process_exit] returns the same result and
    leaves the same state for the two, namely [True] after the restart
    dance. *)
Theorem windows_poll_exception_runs_restart (kind : variant)
    (r : Redirector.t WindowsPTYProcess) (w w0 : WinPTY) (e : exn)
    (fresh : WindowsPTYProcess) :
  VirtualSerialPort._pty_process (serial r) = mkWindowsPTYProcess false w ->
  wp_isalive w = Raise e ->
  wp_isalive w0 = Ok false ->
  wp_exitstatus w0 = Ok (Some 0) ->
  VirtualSerialPort.restart_callback (serial r)
  = Some (Main.process_manager_restart (Ok fresh)) ->
  let r0 := set_serial (VirtualSerialPort.set_pty_process
                          (mkWindowsPTYProcess false w0) (serial r)) r in
  fst (poll (mkWindowsPTYProcess false w)) = Ok (Some 0)
  /\ fst (poll (mkWindowsPTYProcess false w0)) = Ok (Some 0)
  /\ _handle_process_exit true kind r = _handle_process_exit true kind r0
  /\ fst (_handle_process_exit true kind r) = Ok true.
Proof.
  intros Hpty Hexc Hdead Hstatus Hcb r0.
  pose proof (WindowsPTYFacts.poll_exception w Hexc) as Hp.
  pose proof (WindowsPTYFacts.poll_exited w0 Hdead Hstatus) as Hp0.
  assert (E : on_serial VirtualSerialPort.has_process_exited r = (Ok true, r)).
  { apply has_process_exited_windows with (w := w); [assumption | |]; now rewrite Hp. }
  assert (E0 : on_serial VirtualSerialPort.has_process_exited r0 = (Ok true, r0)).
  { apply has_process_exited_windows with (w := w0); [reflexivity | |]; now rewrite Hp0. }
  split; [now rewrite Hp |]. split; [now rewrite Hp0 |]. split.
  - now apply _handle_process_exit_forgets_old_pty with (fresh := fresh).
  - eapply RedirectorFacts._handle_process_exit_restarts; [exact E | exact Hcb | reflexivity].
Qed.

End WindowsSessionFacts.

(** ** The accept loop and the connection guard *)

Module ServerFacts.
Import Server Statements.








End ServerFacts.

(** ** The properties on concrete sessions *)

Module ScenarioFacts.
Import Scenarios Statements.


(** (C6, as stated) fails: a write of the two bytes 0x01 0x02 on an open
    port contains 0x02 and leaves [in_raw_repl] true; and a write of 0x01
    on a closed port leaves [in_raw_repl] false. *)
Lemma write_ctrl_a_wins_over_ctrl_b :
  contains CTRL_B [x01; x02] = true
  /\ VirtualSerialPort.in_raw_repl
       (snd (VirtualSerialPort.write [x01; x02] (port silent silent))) <> false
  /\ contains CTRL_A [x01] = true
  /\ VirtualSerialPort.in_raw_repl
       (snd (VirtualSerialPort.write [x01]
               (VirtualSerialPort.set_closed true (port silent silent)))) <> true.
Proof. repeat split; discriminate. Qed.

Lemma write_tracks_raw_repl_witness :
  VirtualSerialPort.closed (port silent silent) = false
  /\ contains CTRL_A [x02] = false
  /\ contains CTRL_B [x02] = true
  /\ VirtualSerialPort.in_raw_repl
       (snd (VirtualSerialPort.write [x02]
               (VirtualSerialPort.set_in_raw_repl true (port silent silent)))) = false.
Proof.
  split; [reflexivity |]. split; [reflexivity |]. split; [reflexivity |].
  exact (proj1 (proj2 (proj2 (VirtualSerialPortFacts.write_tracks_raw_repl
                                (VirtualSerialPort.set_in_raw_repl true (port silent silent))
                                [x02]) eq_refl))
           eq_refl eq_refl).
Defined.

Lemma read_pending_precedes_closed_witness :
  0 < 2
  /\ VirtualSerialPort.closed port_pending_closed = true
  /\ VirtualSerialPort.pending_reboot_output port_pending_closed <> []
  /\ fst (VirtualSerialPort.read 2 port_pending_closed) = Ok (b "ab").
Proof.
  assert (Hn : 0 < 2) by lia.
  assert (Hp : VirtualSerialPort.pending_reboot_output port_pending_closed <> [])
    by discriminate.
  split; [exact Hn |]. split; [reflexivity |]. split; [exact Hp |].
  exact (proj1 (proj1 (VirtualSerialPortFacts.read_pending_precedes_closed
                         port_pending_closed Hn eq_refl) Hp)).
Defined.

Lemma raw_repl_detection_only_on_fresh_reads_witness :
  VirtualSerialPort.in_raw_repl (snd (VirtualSerialPort.read 4096 port_prompt))
    <> VirtualSerialPort.in_raw_repl port_prompt
  /\ VirtualSerialPort.pending_reboot_output port_prompt = []
  /\ VirtualSerialPort.in_raw_repl
       (snd (VirtualSerialPort.read 4096
               (snd (VirtualSerialPort.update_in_waiting port_prompt))))
     = VirtualSerialPort.in_raw_repl port_prompt.
Proof.
  assert (Hchg : VirtualSerialPort.in_raw_repl (snd (VirtualSerialPort.read 4096 port_prompt))
                 <> VirtualSerialPort.in_raw_repl port_prompt) by discriminate.
  pose proof (VirtualSerialPortFacts.raw_repl_detection_only_on_fresh_reads port_prompt 4096)
    as (_ & _ & Hprobe & Hfresh).
  split; [exact Hchg |]. split; [exact (proj1 (Hfresh Hchg)) |].
  apply Hprobe. discriminate.
Defined.

Lemma soft_reboot_banners_witness :
  let r := raw_session fresh_child in
  let r' := snd (Redirector._handle_process_exit false Redirector.RawSocket r) in
  Redirector._handle_process_exit false Redirector.RawSocket r = (Ok true, r')
  /\ Redirector.alive r' = true
  /\ sock_sent (Redirector.socket r') = [MPREMOTE_RAW_REPL_SOFT_REBOOT].
Proof.
  intros r r'.
  assert (E : Redirector._handle_process_exit false Redirector.RawSocket r = (Ok true, r'))
    by reflexivity.
  assert (Ha : Redirector.alive r' = true) by reflexivity.
  split; [exact E |]. split; [exact Ha |].
  exact (proj2 (@RedirectorFacts.soft_reboot_banners _ _ false Redirector.RawSocket r r' E Ha)
               eq_refl).
Defined.

(** (C1, as stated) fails on the exception-fallback path: in a raw-REPL
    session whose new child raises on the CTRL-A write, the exit is
    handled, the session stays alive, and the client is sent two banners,
    the friendly one and then the fabricated raw-REPL reply. *)
Lemma soft_reboot_fallback_sends_both_banners :
  let r := raw_session fresh_child_write_raises in
  let r' := snd (Redirector._handle_process_exit false Redirector.RawSocket r) in
  VirtualSerialPort.in_raw_repl (Redirector.serial r) = true
  /\ fst (Redirector._handle_process_exit false Redirector.RawSocket r) = Ok true
  /\ Redirector.alive r' = true
  /\ sock_sent (Redirector.socket r')
     = [MPREMOTE_SOFT_REBOOT; MPREMOTE_RAW_REPL_SOFT_REBOOT]
  /\ sock_sent (Redirector.socket r') <> [MPREMOTE_RAW_REPL_SOFT_REBOOT].
Proof. vm_compute. repeat split; discriminate. Qed.

(** (C3, as stated) fails: for the output CR, ESC [ c, CR LF the method
    returns CR CR LF, because the CSI sequence is deleted after the
    normalization has run; normalize(filter_csi(O)) is CR LF. *)
Lemma windows_read_filters_after_normalizing :
  fst (WindowsPTY.read 4096 10 (windows_pty [Ok csi_between_cr])) = Ok [CR; CR; LF]
  /\ Windows.normalize_crlf (Windows._filter_escape_sequences csi_between_cr) = [CR; LF]
  /\ fst (WindowsPTY.read 4096 10 (windows_pty [Ok csi_between_cr]))
     <> Ok (Windows.normalize_crlf (Windows._filter_escape_sequences csi_between_cr)).
Proof. vm_compute. repeat split; discriminate. Qed.

(** The Windows reader does not look at the size it is given. *)
Lemma windows_read_ignores_size :
  fst (WindowsPTY.read 2 10 (windows_pty [Ok (b "abc")])) = Ok (b "abc").
Proof. reflexivity. Qed.

Lemma windows_read_normalizes_then_filters_witness :
  csi_between_cr <> []
  /\ fst (WindowsPTY.read 4096 10 (windows_pty [Ok csi_between_cr]))
     = Ok (Windows._filter_escape_sequences (Windows.normalize_crlf csi_between_cr)).
Proof.
  assert (HO : csi_between_cr <> []) by discriminate.
  split; [exact HO |].
  exact (@WindowsPTYFacts.windows_read_normalizes_then_filters
           (WindowsPTY.mkWinPTY [Ok csi_between_cr] (Ok true) (Ok None) false [])
           csi_between_cr [] 4096 10 HO (or_introl eq_refl)).
Defined.

(** (C4, as stated) fails: in the port that [main] builds, the PTY read of
    a reader iteration is made with a timeout of 100 ms, not 10 ms. *)
Lemma reader_reads_with_main_timeout :
  let r' := snd (Redirector.reader_iteration false Redirector.RawSocket
                   (session (port silent silent))) in
  ScriptedPTY.calls (VirtualSerialPort._pty_process (Redirector.serial r'))
  = [ScriptedPTY.CallIsAlive; ScriptedPTY.CallRead 4096 100]
  /\ ScriptedPTY.calls (VirtualSerialPort._pty_process (Redirector.serial r'))
     <> [ScriptedPTY.CallIsAlive; ScriptedPTY.CallRead 4096 10].
Proof. vm_compute. split; [reflexivity | discriminate]. Qed.

Lemma reader_iteration_read_witness :
  let r := session (port silent silent) in
  let p1 := ScriptedPTY.log ScriptedPTY.CallIsAlive silent in
  let r' := snd (Redirector.reader_iteration false Redirector.RawSocket r) in
  pty_is_alive (VirtualSerialPort._pty_process (Redirector.serial r)) = (Ok true, p1)
  /\ VirtualSerialPort._pty_process (Redirector.serial r')
     = snd (pty_read 4096 100 p1).
Proof.
  intros r p1 r'.
  assert (Ha : pty_is_alive (VirtualSerialPort._pty_process (Redirector.serial r))
               = (Ok true, p1)) by reflexivity.
  split; [exact Ha |].
  exact (proj1 (proj2 (@RedirectorFacts.reader_iteration_read
                         _ _ false Redirector.RawSocket r p1 Ha))
               eq_refl eq_refl).
Defined.

(** (C7, as stated) fails: on POSIX, with a child that prints nothing, the
    loop is not over after 5 empty reads, nor after 10: it reads 11 times.
    On Windows it reads 21 times. *)
Lemma drain_loop_outlasts_empty_read_budget :
  fst (Redirector.drain_loop false Redirector.max_attempts (Redirector.mkDrain [] 0) []
         (session (port silent silent)))
  = Ok (Redirector.mkDrain [] 11, repeat [] 11)
  /\ claimed_stops_after false (repeat [] 5) = true
  /\ claimed_stops_after false (repeat [] 10) = true
  /\ fst (Redirector.drain_loop true Redirector.max_attempts (Redirector.mkDrain [] 0) []
            (session (port silent silent)))
     = Ok (Redirector.mkDrain [] 21, repeat [] 21)
  /\ claimed_stops_after true (repeat [] 10) = true.
Proof. vm_compute. repeat split. Qed.

(** (C8, as stated) fails: with a library handle that raises when polled,
    [poll] returns 0, the redirector runs the restart dance, and the
    session stays alive with the friendly banner and the new child's
    startup banner sent to the client. *)
Lemma windows_poll_exception_restarts_child :
  let r := windows_session windows_pty_poll_raises in
  let r' := snd (Redirector._handle_process_exit true Redirector.RawSocket r) in
  fst (WindowsPTY.poll windows_pty_poll_raises) = Ok (Some 0)
  /\ fst (Redirector._handle_process_exit true Redirector.RawSocket r) = Ok true
  /\ Redirector.alive r' = true
  /\ sock_sent (Redirector.socket r')
     = [MPREMOTE_SOFT_REBOOT; b "MicroPython" ++ [CR; LF] ++ b ">>> "].
Proof. vm_compute. repeat split. Qed.

Lemma windows_poll_exception_runs_restart_witness :
  let r := windows_session windows_pty_poll_raises in
  let r0 := windows_session windows_pty_exited in
  Redirector._handle_process_exit true Redirector.RawSocket r
  = Redirector._handle_process_exit true Redirector.RawSocket r0
  /\ fst (Redirector._handle_process_exit true Redirector.RawSocket r) = Ok true.
Proof.
  intros r r0.
  exact (proj2 (proj2
    (@WindowsSessionFacts.windows_poll_exception_runs_restart
       Redirector.RawSocket r
       (WindowsPTY._pty windows_pty_poll_raises) (WindowsPTY._pty windows_pty_exited)
       OtherException
       (windows_pty [Ok (b "MicroPython" ++ [CR; LF] ++ b ">>> ")])
       eq_refl eq_refl eq_refl eq_refl eq_refl))).
Defined.



End ScenarioFacts.


(* ===================================================================== *)
(** * Further properties of the code *)
(* ===================================================================== *)

(** ** Byte strings *)

Module BytesFacts.

Lemma byte_eqb_true (x y : byte) : Byte.eqb x y = true <-> x = y.
Proof.
  split.
  - apply Byte.byte_dec_bl.
  - apply Byte.byte_dec_lb.
Qed.

Lemma startswith_iff (prefix data : bytes) :
  startswith prefix data = true <-> exists post, data = prefix ++ post.
Proof.
  revert data. induction prefix as [| p prefix IH]; intros data; simpl.
  - split; [intros _; now exists data | reflexivity].
  - destruct data as [| d data].
    + split; [discriminate | intros [post Hpost]; discriminate].
    + rewrite andb_true_iff, byte_eqb_true, IH. split.
      * intros [-> [post ->]]. now exists post.
      * intros [post Hpost]. injection Hpost as -> ->. split; [reflexivity | now exists post].
Qed.

(** [needle in data] holds exactly when [data] splits around [needle]. *)
Lemma contains_iff (needle data : bytes) :
  contains needle data = true <-> exists pre post, data = pre ++ needle ++ post.
Proof.
  induction data as [| d data IH]; simpl.
  - rewrite orb_false_r, startswith_iff. split.
    + intros [post Hpost]. now exists [], post.
    + intros (pre & post & Hsplit). destruct pre as [| x pre]; [| discriminate].
      now exists post.
  - rewrite orb_true_iff, startswith_iff, IH. split.
    + intros [[post Hpost] | (pre & post & Hsplit)].
      * now exists [], post.
      * exists (d :: pre), post. simpl. now rewrite Hsplit.
    + intros (pre & post & Hsplit). destruct pre as [| x pre].
      * left. now exists post.
      * right. injection Hsplit as _ Hsplit. now exists pre, post.
Qed.

Lemma contains_false_tail (needle : bytes) (d : byte) (data : bytes) :
  contains needle (d :: data) = false ->
  startswith needle (d :: data) = false /\ contains needle data = false.
Proof. simpl. intros Hc. now apply orb_false_iff in Hc. Qed.

(** [data.replace(old, new)] returns [data] when [old] does not occur. *)
Lemma replace_absent (old new data : bytes) :
  contains old data = false -> replace old new data = data.
Proof.
  unfold replace. induction data as [| d data IH]; intros Hc; [reflexivity |].
  destruct (contains_false_tail _ _ _ Hc) as [Hs Hrest].
  cbn [replace_from]. rewrite Hs. f_equal. now apply IH.
Qed.

End BytesFacts.

(** ** The Windows output filter *)

Module FilterFacts.
Import Windows.

Lemma csi_match_needs_esc (c : byte) (data : bytes) :
  c <> ESC -> csi_match_len (c :: data) = None.
Proof. unfold ESC. intros Hc. destruct c; try reflexivity; congruence. Qed.

Lemma sub_csi_keeps_plain_prefix (pre data : bytes) :
  ~ In ESC pre ->
  sub_csi_from 0 (pre ++ data) = pre ++ sub_csi_from 0 data.
Proof.
  induction pre as [| c pre IH]; intros Hesc; [reflexivity |].
  cbn [app sub_csi_from].
  rewrite csi_match_needs_esc by (intros ->; apply Hesc; now left).
  f_equal. apply IH. intros Hin. apply Hesc. now right.
Qed.

Lemma sub_csi_skips (skipped data : bytes) :
  sub_csi_from (length skipped) (skipped ++ data) = sub_csi_from 0 data.
Proof.
  induction skipped as [| c skipped IH]; [reflexivity |].
  cbn [length app]. destruct data as [| d data].
  - rewrite app_nil_r in *. simpl. destruct skipped; [reflexivity |].
    simpl in IH. exact IH.
  - cbn [sub_csi_from]. exact IH.
Qed.

Lemma letter_is_no_param (c : byte) : is_letter c = true -> is_csi_param c = false.
Proof. destruct c; simpl; intros Hl; try reflexivity; discriminate. Qed.

Lemma csi_tail_len_params (params : bytes) (letter : byte) (rest : bytes) :
  forallb is_csi_param params = true ->
  is_letter letter = true ->
  csi_tail_len (params ++ letter :: rest) = Some (S (length params)).
Proof.
  intros Hp Hl. induction params as [| c params IH]; cbn [app csi_tail_len length].
  - now rewrite (letter_is_no_param _ Hl), Hl.
  - cbn [forallb] in Hp. apply andb_true_iff in Hp as [Hc Hp].
    rewrite Hc, (IH Hp). reflexivity.
Qed.

(** (X1) [_filter_escape_sequences] keeps every byte that precedes the
    first ESC and deletes a complete CSI sequence, ESC [ followed by any
    number of bytes of [0-9;?] and one letter, going on with the bytes
    after it. *)
Theorem filter_deletes_complete_csi (pre params : bytes) (letter : byte) (rest : bytes) :
  ~ In ESC pre ->
  forallb is_csi_param params = true ->
  is_letter letter = true ->
  _filter_escape_sequences (pre ++ [ESC; x5b] ++ params ++ letter :: rest)
  = pre ++ _filter_escape_sequences rest.
Proof.
  intros Hpre Hp Hl. unfold _filter_escape_sequences.
  rewrite sub_csi_keeps_plain_prefix by assumption. f_equal.
  cbn [app sub_csi_from]. unfold csi_match_len, ESC.
  rewrite (@csi_tail_len_params params letter rest Hp Hl). cbn [option_map Nat.pred].
  replace (params ++ letter :: rest) with ((params ++ [letter]) ++ rest)
    by now rewrite <- app_assoc.
  replace (S (length params)) with (length (params ++ [letter]));
    [apply sub_csi_skips |].
  rewrite length_app. simpl. lia.
Qed.

Lemma filter_plain (data : bytes) :
  ~ In ESC data -> _filter_escape_sequences data = data.
Proof.
  intros Hesc. unfold _filter_escape_sequences.
  rewrite <- (app_nil_r data) at 1. rewrite sub_csi_keeps_plain_prefix by assumption.
  simpl. apply app_nil_r.
Qed.

Lemma sub_csi_length (data : bytes) :
  forall skip, (length (sub_csi_from skip data) <= length data)%nat.
Proof.
  induction data as [| c data IH]; intros skip; cbn [sub_csi_from length]; [lia |].
  destruct skip as [| k].
  - destruct (csi_match_len (c :: data)) as [n |].
    + specialize (IH (Nat.pred n)). lia.
    + cbn [length]. specialize (IH 0%nat). lia.
  - specialize (IH k). lia.
Qed.

Lemma replace_crlf_length (data : bytes) :
  forall skip,
    (length (replace_from skip [CR; CR; LF] [CR; LF] data) + Nat.min skip (length data)
     <= length data)%nat.
Proof.
  induction data as [| c data IH]; intros skip; cbn [replace_from length]; [lia |].
  destruct skip as [| k].
  - destruct (startswith [CR; CR; LF] (c :: data)) eqn:Hs.
    + apply BytesFacts.startswith_iff in Hs as [post Hpost].
      injection Hpost as _ Hdata. specialize (IH 2%nat).
      rewrite Hdata in *. cbn [length app Nat.pred Nat.min] in *. lia.
    + cbn [length]. specialize (IH 0%nat). lia.
  - specialize (IH k). cbn [Nat.min]. lia.
Qed.

(** (X2) Output of the child that contains no ESC byte and no [\r\r\n]
    passes [WindowsPTYProcess.read] unchanged; and whatever the output,
    the bytes returned are never more than the library handed over. *)
Theorem windows_read_is_transparent_on_plain_output
    (w : WindowsPTY.WinPTY) (O : bytes) (rest : list (result bytes)) (size timeout : Z) :
  WindowsPTY.wp_reads w = Ok O :: rest ->
  O <> [] ->
  (~ In ESC O -> contains [CR; CR; LF] O = false ->
   fst (WindowsPTY.read size timeout (WindowsPTY.mkWindowsPTYProcess false w)) = Ok O)
  /\ exists data,
       fst (WindowsPTY.read size timeout (WindowsPTY.mkWindowsPTYProcess false w)) = Ok data
       /\ (length data <= length O)%nat.
Proof.
  intros Hr HO.
  assert (Hread : fst (WindowsPTY.read size timeout (WindowsPTY.mkWindowsPTYProcess false w))
                  = Ok (_filter_escape_sequences (normalize_crlf O))).
  { unfold WindowsPTY.read, try_except, bind, WindowsPTY.on_pty, zoom, WindowsPTY.lib_read.
    simpl. rewrite Hr. simpl. apply nonempty_true_iff in HO. now rewrite HO. }
  split.
  - intros Hesc Hcr. rewrite Hread. unfold normalize_crlf.
    rewrite BytesFacts.replace_absent by assumption. now rewrite filter_plain.
  - eexists. split; [exact Hread |].
    unfold _filter_escape_sequences.
    etransitivity; [apply sub_csi_length |].
    pose proof (replace_crlf_length O 0) as Hlen.
    unfold normalize_crlf, replace. lia.
Qed.

End FilterFacts.

(** ** The PTY processes once closed *)

Module ClosedPTYFacts.

(** (X3) [WindowsPTYProcess] never raises: [read], [write] and [poll]
    return whatever the library does.  After [close()] every [read]
    returns [b""], every [write] returns 0, [poll] returns 0, [is_alive]
    is false and a second [close()] does nothing, all without a call on
    the library handle. *)
Theorem windows_pty_never_raises_and_is_inert_once_closed
    (self : WindowsPTY.WindowsPTYProcess) (size timeout : Z) (data : bytes) :
  let closed := snd (WindowsPTY.close self) in
  (exists out, fst (WindowsPTY.read size timeout self) = Ok out)
  /\ (exists n, fst (WindowsPTY.write data self) = Ok n)
  /\ (exists status, fst (WindowsPTY.poll self) = Ok status)
  /\ WindowsPTY.read size timeout closed = (Ok [], closed)
  /\ WindowsPTY.write data closed = (Ok 0, closed)
  /\ WindowsPTY.poll closed = (Ok (Some 0), closed)
  /\ WindowsPTY.is_alive closed = (Ok false, closed)
  /\ WindowsPTY.close closed = (Ok tt, closed)
  /\ WindowsPTY._pty closed = WindowsPTY._pty self.
Proof.
  intros closed. subst closed. destruct self as [cl w].
  split; [| split; [| split]].
  - unfold WindowsPTY.read. cbn [WindowsPTY._closed]. destruct cl; [now eexists |].
    unfold try_except, bind, WindowsPTY.on_pty, zoom, WindowsPTY.lib_read, sleep, ret.
    simpl.
    destruct (next_outcome (Ok []) (WindowsPTY.wp_reads w)) as [[o | e] script];
      simpl; [| now eexists].
    destruct (nonempty o); simpl; [now eexists |].
    destruct (next_outcome (Ok []) script) as [[o2 | e2] script2];
      simpl; [| now eexists].
    destruct (nonempty o2); now eexists.
  - unfold WindowsPTY.write. cbn [WindowsPTY._closed]. destruct cl; [now eexists |].
    unfold try_except, WindowsPTY.on_pty, zoom, WindowsPTY.lib_write, ret.
    cbn [WindowsPTY._pty]. destruct (WindowsPTY.wp_write_raises w); now eexists.
  - unfold WindowsPTY.poll. cbn [WindowsPTY._closed]. destruct cl; [now eexists |].
    unfold try_except, bind, WindowsPTY.on_pty, zoom, WindowsPTY.lib_isalive,
      WindowsPTY.lib_get_exitstatus, ret.
    cbn [WindowsPTY._pty].
    destruct (WindowsPTY.wp_isalive w) as [[|] | e]; cbn [fst snd negb WindowsPTY._pty];
      try (now eexists).
    destruct (WindowsPTY.wp_exitstatus w); now eexists.
  - unfold WindowsPTY.close. cbn [WindowsPTY._closed]. destruct cl; repeat split.
Qed.

(** (X4) A failure of [select] or [os.read] with OSError makes
    [UnixPTYProcess.read] return [b""] and marks the PTY closed; a failure
    of [os.write] does the same for [write], which returns 0.  From then
    on every [read] returns [b""] and every [write] returns 0 without a
    call on the file descriptor. *)
Theorem unix_pty_error_closes
    (self : UnixPTY.UnixPTYProcess) (size timeout : Z) (data : bytes) :
  UnixPTY._closed self = false ->
  (forall script, UnixPTY.fd_script (UnixPTY._fd self) = UnixPTY.FdFail :: script ->
     fst (UnixPTY.read size timeout self) = Ok []
     /\ UnixPTY._closed (snd (UnixPTY.read size timeout self)) = true)
  /\ (UnixPTY.fd_write_raises (UnixPTY._fd self) = true ->
        fst (UnixPTY.write data self) = Ok 0
        /\ UnixPTY._closed (snd (UnixPTY.write data self)) = true)
  /\ (forall closed : UnixPTY.UnixPTYProcess,
        UnixPTY._closed closed = true ->
        UnixPTY.read size timeout closed = (Ok [], closed)
        /\ UnixPTY.write data closed = (Ok 0, closed)).
Proof.
  intros Hopen. split; [| split].
  - intros script Hscript.
    unfold UnixPTY.read. rewrite Hopen.
    unfold try_except_os_value, try_except, bind, UnixPTY.on_fd, zoom, UnixPTY.select_select.
    rewrite Hscript. cbn [next_outcome fst snd]. split; reflexivity.
  - intros Hraise.
    unfold UnixPTY.write. rewrite Hopen.
    unfold try_except_os_value, try_except, UnixPTY.on_fd, zoom, UnixPTY.os_write.
    rewrite Hraise. cbn [fst snd]. split; reflexivity.
  - intros closed Hc. unfold UnixPTY.read, UnixPTY.write. rewrite Hc. split; reflexivity.
Qed.

(** (X26) [UnixPTYProcess.close] ends the child of an open PTY: after it
    the child is not alive and a second [close()] does nothing.  But the
    flag that guards [close] is the one a failed read sets: on a PTY that
    a read error has marked closed, [close()] returns at once and a child
    that was running is still alive afterwards. *)
Theorem unix_close_skips_pty_closed_by_error
    (self : UnixPTY.UnixPTYProcess) (size timeout : Z) :
  UnixPTY._closed self = false ->
  (let closed := snd (UnixPTY.close self) in
   fst (UnixPTY.close self) = Ok tt
   /\ UnixPTY.is_alive closed = (Ok false, closed)
   /\ UnixPTY.close closed = (Ok tt, closed))
  /\ (forall script,
        UnixPTY._process self = Some None ->
        UnixPTY.fd_script (UnixPTY._fd self) = UnixPTY.FdFail :: script ->
        let failed := snd (UnixPTY.read size timeout self) in
        UnixPTY.close failed = (Ok tt, failed)
        /\ UnixPTY.is_alive failed = (Ok true, failed)).
Proof.
  intros Hopen. split.
  - unfold UnixPTY.close. rewrite Hopen. cbn [fst snd UnixPTY._closed].
    split; [reflexivity |]. split; [| reflexivity].
    unfold UnixPTY.is_alive, UnixPTY.poll, bind, ret. cbn [UnixPTY._process].
    destruct (UnixPTY._process self) as [[rc |] |]; reflexivity.
  - intros script Hproc Hscript.
    unfold UnixPTY.read. rewrite Hopen.
    unfold try_except_os_value, try_except, bind, UnixPTY.on_fd, zoom, UnixPTY.select_select.
    rewrite Hscript. cbn [next_outcome fst snd].
    unfold UnixPTY.set_closed, modify, ret. cbn [fst snd UnixPTY._closed UnixPTY._fd
                                                 UnixPTY._process].
    unfold UnixPTY.close, UnixPTY.is_alive, UnixPTY.poll, bind, ret.
    cbn [UnixPTY._closed UnixPTY._process]. rewrite Hproc. split; reflexivity.
Qed.

End ClosedPTYFacts.

(** ** More on the virtual serial port *)

Module PortFacts.
Import VirtualSerialPort.
Section WithPTY.

Context {P : Type} `{BasePTYProcess P}.

(** (X5) No exception of the PTY process gets through the port: [read],
    [write] and [update_in_waiting] return on every port state, whatever
    the PTY process does. *)
Theorem port_never_raises (self : t P) (size : Z) (data : bytes) :
  (exists out, fst (read size self) = Ok out)
  /\ (exists n, fst (write data self) = Ok n)
  /\ fst (update_in_waiting self) = Ok tt.
Proof.
  split; [| split].
  - unfold read. destruct (nonempty (pending_reboot_output self)); [now eexists |].
    destruct (closed self); [now eexists |].
    unfold try_except, bind, on_pty, zoom, modify, ret.
    destruct (pty_read size (timeout self) (_pty_process self)) as [[out | e] p'];
      [| now eexists].
    destruct (nonempty out); [| now eexists].
    rewrite VirtualSerialPortFacts.update_raw_repl_state_spec. now eexists.
  - unfold write. destruct (closed self); [now eexists |].
    unfold try_except, bind, on_pty, zoom, modify, ret.
    match goal with
    | |- context [pty_write data (_pty_process ?s)] =>
        destruct (pty_write data (_pty_process s)) as [[n | e] p']
    end; now eexists.
  - unfold update_in_waiting. destruct (closed self); [reflexivity |].
    unfold try_except, bind, on_pty, zoom, modify.
    destruct (pty_read 1 1 (_pty_process self)) as [[out | e] p']; [| reflexivity].
    destruct (nonempty out); reflexivity.
Qed.

(** (X6) When the PTY read of a [read] raises, the call returns [b""] and
    the port is marked closed; from then on, whatever is asked, [read]
    returns [b""], [write] returns 0 and [update_in_waiting] reports
    nothing waiting, without any call on the PTY process. *)
Theorem pty_read_error_closes_port (self : t P) (size : Z) (e : exn) (p' : P) :
  pending_reboot_output self = [] ->
  closed self = false ->
  pty_read size (timeout self) (_pty_process self) = (Raise e, p') ->
  let self' := snd (read size self) in
  fst (read size self) = Ok []
  /\ closed self' = true
  /\ (forall n, read n self' = (Ok [], self'))
  /\ (forall data, write data self' = (Ok 0, self'))
  /\ update_in_waiting self' = (Ok tt, set_in_waiting 0 self').
Proof.
  intros Hp Hc Hread self'. subst self'.
  assert (E : read size self = (Ok [], set_closed true (set_pty_process p' self))).
  { unfold read. rewrite Hp, Hc. cbn [nonempty].
    unfold try_except, bind, on_pty, zoom, modify, ret. now rewrite Hread. }
  rewrite E. cbn [fst snd].
  split; [reflexivity |]. split; [reflexivity |]. split; [| split].
  - intros n. unfold read. cbn [pending_reboot_output set_closed set_pty_process closed].
    now rewrite Hp.
  - intros data. reflexivity.
  - reflexivity.
Qed.

(** (X7) A successful [do_restart] reopens the port on the new child:
    [closed] and [in_raw_repl] are cleared, the timeout and the pending
    bytes stay, and with nothing pending the next [read] is a read of the
    new PTY process. *)
Theorem do_restart_reopens_port (self : t P) (callback : RestartCallback P) (fresh : P)
    (size : Z) :
  restart_callback self = Some callback ->
  callback (_pty_process self) = Ok (Some fresh) ->
  let self' := snd (do_restart self) in
  fst (do_restart self) = Ok true
  /\ closed self' = false
  /\ in_raw_repl self' = false
  /\ timeout self' = timeout self
  /\ pending_reboot_output self' = pending_reboot_output self
  /\ _pty_process self' = fresh
  /\ (pending_reboot_output self = [] ->
      _pty_process (snd (read size self')) = snd (pty_read size (timeout self) fresh)).
Proof.
  intros Hcb Hfresh self'. subst self'.
  unfold do_restart. rewrite Hcb, Hfresh. cbn [fst snd].
  repeat split.
  intros Hp. unfold read.
  cbn [pending_reboot_output closed set_closed set_in_raw_repl set_pty_process timeout
       _pty_process].
  rewrite Hp. cbn [nonempty].
  unfold try_except, bind, on_pty, zoom, modify, ret.
  cbn [_pty_process set_pty_process set_closed set_in_raw_repl].
  destruct (pty_read size (timeout self) fresh) as [[out | e] p']; cbn [fst snd].
  - destruct (nonempty out); [| reflexivity].
    rewrite VirtualSerialPortFacts.update_raw_repl_state_spec. reflexivity.
  - reflexivity.
Qed.

Lemma update_in_waiting_data (self : t P) (data : bytes) (p' : P) :
  closed self = false ->
  pty_read 1 1 (_pty_process self) = (Ok data, p') ->
  data <> [] ->
  update_in_waiting self
  = (Ok tt, set_in_waiting 1
              (set_pending_reboot_output (data ++ pending_reboot_output self)
                 (set_pty_process p' self))).
Proof.
  intros Hc Hread Hdata. unfold update_in_waiting. rewrite Hc.
  unfold try_except, bind, on_pty, zoom, modify. rewrite Hread.
  apply nonempty_true_iff in Hdata. now rewrite Hdata.
Qed.

(** (X8) The [in_waiting] probe takes bytes from the PTY and puts them at
    the front of the pending buffer: when the probe's PTY read returns
    data, [in_waiting] becomes 1, [in_raw_repl] stays as it was, and the
    next [read(n)] returns the first n bytes of the probed data followed by
    what was pending before. *)
Theorem probe_then_read_returns_probed_bytes_first (self : t P) (data : bytes) (p' : P)
    (n : Z) :
  closed self = false ->
  pty_read 1 1 (_pty_process self) = (Ok data, p') ->
  data <> [] ->
  0 < n ->
  let probed := snd (update_in_waiting self) in
  in_waiting probed = 1
  /\ pending_reboot_output probed = data ++ pending_reboot_output self
  /\ _pty_process probed = p'
  /\ in_raw_repl probed = in_raw_repl self
  /\ fst (read n probed) = Ok (firstn (Z.to_nat n) (data ++ pending_reboot_output self))
  /\ _pty_process (snd (read n probed)) = p'.
Proof.
  intros Hc Hread Hdata Hn probed.
  subst probed. rewrite (update_in_waiting_data self Hc Hread Hdata). cbn [snd].
  split; [reflexivity |]. split; [reflexivity |]. split; [reflexivity |].
  split; [reflexivity |].
  rewrite VirtualSerialPortFacts.read_pending.
  - cbn [fst snd]. rewrite slice_to_pos by lia. split; reflexivity.
  - cbn [pending_reboot_output set_in_waiting set_pending_reboot_output].
    destruct data; [congruence | discriminate].
Qed.

(** (X9) Two probes in a row, with no [read] between them, leave the
    bytes of the second probe in front of those of the first: the pending
    buffer then holds the later bytes before the earlier ones. *)
Theorem two_probes_queue_later_bytes_first (self : t P) (d1 d2 : bytes) (p1 p2 : P) :
  closed self = false ->
  pty_read 1 1 (_pty_process self) = (Ok d1, p1) ->
  pty_read 1 1 p1 = (Ok d2, p2) ->
  d1 <> [] ->
  d2 <> [] ->
  pending_reboot_output (snd (update_in_waiting (snd (update_in_waiting self))))
  = d2 ++ d1 ++ pending_reboot_output self.
Proof.
  intros Hc H1 H2 Hd1 Hd2.
  rewrite (update_in_waiting_data self Hc H1 Hd1). cbn [snd].
  rewrite (@update_in_waiting_data _ d2 p2); [| exact Hc | exact H2 | exact Hd2].
  cbn [snd pending_reboot_output set_in_waiting set_pending_reboot_output].
  reflexivity.
Qed.

Lemma firstn_then_firstn_skipn {A} (n m : nat) (l : list A) :
  firstn n l ++ firstn m (skipn n l) = firstn (n + m) l.
Proof.
  revert l. induction n as [| n IH]; intros l; [reflexivity |].
  destruct l as [| x l]; simpl.
  - now rewrite firstn_nil.
  - now rewrite IH.
Qed.

(** (X10) Pending bytes read in two pieces come out in order and
    complete: with more than n bytes pending, [read(n)] followed by
    [read(m)] returns the first n bytes and then the next m (or as many as
    are left), together the first n+m bytes of the buffer, and the PTY
    process is not called. *)
Theorem pending_is_drained_in_order (self : t P) (n m : Z) :
  0 < n ->
  0 < m ->
  (Z.to_nat n < length (pending_reboot_output self))%nat ->
  let pending := pending_reboot_output self in
  let after_first := snd (read n self) in
  fst (read n self) = Ok (firstn (Z.to_nat n) pending)
  /\ fst (read m after_first) = Ok (firstn (Z.to_nat m) (skipn (Z.to_nat n) pending))
  /\ firstn (Z.to_nat n) pending ++ firstn (Z.to_nat m) (skipn (Z.to_nat n) pending)
     = firstn (Z.to_nat n + Z.to_nat m) pending
  /\ pending_reboot_output (snd (read m after_first))
     = skipn (Z.to_nat n + Z.to_nat m) pending
  /\ _pty_process (snd (read m after_first)) = _pty_process self.
Proof.
  intros Hn Hm Hlen pending after_first. subst pending after_first.
  assert (Hp : pending_reboot_output self <> []).
  { intros Hnil. rewrite Hnil in Hlen. simpl in Hlen. lia. }
  rewrite (VirtualSerialPortFacts.read_pending self n Hp). cbn [fst snd].
  rewrite slice_to_pos, slice_from_pos by lia.
  assert (Hrest : skipn (Z.to_nat n) (pending_reboot_output self) <> []).
  { intros Hnil. apply (f_equal (@length _)) in Hnil. rewrite length_skipn in Hnil.
    simpl in Hnil. lia. }
  rewrite VirtualSerialPortFacts.read_pending
    by (cbn [pending_reboot_output set_pending_reboot_output]; exact Hrest).
  cbn [fst snd pending_reboot_output set_pending_reboot_output _pty_process].
  rewrite slice_to_pos, slice_from_pos by lia.
  split; [reflexivity |]. split; [reflexivity |].
  split; [apply firstn_then_firstn_skipn |].
  split; [| reflexivity].
  rewrite skipn_skipn. f_equal. lia.
Qed.

(** (X11) The raw-REPL detection on a fresh read lets the raw-REPL prompt
    win: data that contains [raw REPL; CTRL-B to exit] anywhere sets
    [in_raw_repl], also when [>>>] occurs in the same data; data with
    [>>>] and without the prompt clears it; data with neither leaves it
    as it was. *)
Theorem fresh_read_detection_prefers_raw_prompt (self : t P) (size : Z) (data : bytes)
    (p' : P) :
  pending_reboot_output self = [] ->
  closed self = false ->
  pty_read size (timeout self) (_pty_process self) = (Ok data, p') ->
  let after := in_raw_repl (snd (read size self)) in
  ((exists pre post, data = pre ++ RAW_REPL_PROMPT ++ post) -> after = true)
  /\ (contains RAW_REPL_PROMPT data = false ->
      (exists pre post, data = pre ++ FRIENDLY_PROMPT ++ post) -> after = false)
  /\ (contains RAW_REPL_PROMPT data = false -> contains FRIENDLY_PROMPT data = false ->
      after = in_raw_repl self).
Proof.
  intros Hp Hc Hread after. subst after.
  assert (E : in_raw_repl (snd (read size self))
              = if nonempty data
                then Statements.raw_repl_after_response data (in_raw_repl self)
                else in_raw_repl self).
  { unfold read. rewrite Hp, Hc. cbn [nonempty].
    unfold try_except, bind, on_pty, zoom, modify, ret. rewrite Hread.
    destruct (nonempty data); [| reflexivity].
    rewrite VirtualSerialPortFacts.update_raw_repl_state_spec. reflexivity. }
  rewrite E. unfold Statements.raw_repl_after_response.
  split; [| split].
  - intros Hsplit. pose proof (proj2 (BytesFacts.contains_iff _ _) Hsplit) as Hraw.
    rewrite Hraw. destruct Hsplit as (pre & post & ->).
    destruct pre; reflexivity.
  - intros Hraw Hsplit. pose proof (proj2 (BytesFacts.contains_iff _ _) Hsplit) as Hfr.
    rewrite Hraw, Hfr. destruct Hsplit as (pre & post & ->).
    assert (Hne : nonempty (pre ++ FRIENDLY_PROMPT ++ post) = true) by (destruct pre; reflexivity).
    rewrite Hne. destruct (in_raw_repl self); reflexivity.
  - intros Hraw Hfr. rewrite Hraw, Hfr. destruct (nonempty data); reflexivity.
Qed.

End WithPTY.
End PortFacts.

(** ** More on the soft reboot *)

Module RestartFacts.
Import Redirector Statements.
Section WithPTY.

Context {P : Type} `{BasePTYProcess P}.
Variable IS_WINDOWS : bool.
Variable kind : variant.

(** (X12) [_handle_process_exit] never leaves the writer parked and lets
    no exception of the restart escape: once the exit test has returned,
    the call returns; if the child is alive it returns [False] having
    only polled the child; if the child has exited, [_restarting] is
    false when the call returns, on every path. *)
Theorem handle_process_exit_always_unparks (r r0 : t P) (exited : bool) :
  on_serial VirtualSerialPort.has_process_exited r = (Ok exited, r0) ->
  exists restarted r',
    _handle_process_exit IS_WINDOWS kind r = (Ok restarted, r')
    /\ (exited = false -> restarted = false /\ r' = r0)
    /\ (exited = true -> _restarting r' = false).
Proof.
  intros E0. unfold _handle_process_exit. unfold bind at 1. rewrite E0.
  destruct exited; cbn [negb].
  - unfold bind at 1. unfold modify at 1. unfold try_finally, try_except.
    match goal with
    | |- context [let (r, s') := match ?body ?s0 with _ => _ end in _] =>
        destruct (body s0) as [[b | e] s1]
    end.
    + exists b, (set_restarting false s1). repeat split; congruence || reflexivity.
    + unfold bind, modify, ret. eexists _, _. repeat split; congruence || reflexivity.
  - exists false, r0. unfold ret. repeat split; congruence.
Qed.


Lemma pty_only_in_raw_repl (r r' : t P) :
  pty_only r r' ->
  VirtualSerialPort.in_raw_repl (serial r') = VirtualSerialPort.in_raw_repl (serial r).
Proof. intros [p ->]. reflexivity. Qed.

Lemma set_raw_repl_result (r r' : t P) (res : result unit) :
  on_serial (modify (VirtualSerialPort.set_in_raw_repl true)) r = (res, r') ->
  VirtualSerialPort.in_raw_repl (serial r') = true.
Proof. unfold on_serial, zoom, modify. intros E. inversion E. reflexivity. Qed.

Lemma _reenter_raw_repl_sets_raw (r r' : t P) (res : result unit) :
  _reenter_raw_repl IS_WINDOWS kind r = (res, r') ->
  VirtualSerialPort.in_raw_repl (serial r') = true.
Proof.
  unfold _reenter_raw_repl, try_except. intros E.
  destruct (_reenter_raw_repl_try IS_WINDOWS kind r) as [[[] | e] r1] eqn:Et.
  - inversion E; subst. clear E.
    unfold _reenter_raw_repl_try, bind, sleep, ret in Et.
    destruct (on_pty_process (pty_write CTRL_A) r) as [[n | e] ra]; [| discriminate].
    destruct (drain_loop IS_WINDOWS max_attempts (mkDrain [] 0) [] ra) as [[vc | e] rb];
      [| discriminate].
    destruct (_safe_send kind MPREMOTE_RAW_REPL_SOFT_REBOOT rb) as [[[] | e] rc];
      [| discriminate].
    eapply set_raw_repl_result; exact Et.
  - unfold _reenter_raw_repl_except, bind in E.
    destruct (RedirectorFacts._safe_send_spec kind MPREMOTE_SOFT_REBOOT r1) as (Hf1 & _).
    destruct (_safe_send kind MPREMOTE_SOFT_REBOOT r1) as [res1 ra].
    cbn [fst] in Hf1. subst res1.
    destruct (RedirectorFacts._safe_send_spec kind MPREMOTE_RAW_REPL_SOFT_REBOOT ra)
      as (Hf2 & _).
    destruct (_safe_send kind MPREMOTE_RAW_REPL_SOFT_REBOOT ra) as [res2 rb].
    cbn [fst] in Hf2. subst res2.
    eapply set_raw_repl_result; exact E.
Qed.

Lemma do_restart_true_clears_raw (r r' : t P) :
  on_serial VirtualSerialPort.do_restart r = (Ok true, r') ->
  VirtualSerialPort.in_raw_repl (serial r') = false.
Proof.
  unfold on_serial, zoom, VirtualSerialPort.do_restart. intros E.
  destruct (VirtualSerialPort.restart_callback (serial r)) as [callback |];
    [| inversion E].
  destruct (callback (VirtualSerialPort._pty_process (serial r))) as [[fresh |] | e];
    inversion E. reflexivity.
Qed.

(** (X14) The raw-REPL mode survives the soft reboot: whenever
    [_handle_process_exit] restarts the child and returns [True],
    [in_raw_repl] is afterwards what it was when the exit was observed,
    true again for a raw-REPL client (also on the exception-fallback path)
    and false for a friendly client, whatever the new child printed. *)
Theorem soft_reboot_preserves_raw_repl_mode (r r' : t P) :
  _handle_process_exit IS_WINDOWS kind r = (Ok true, r') ->
  VirtualSerialPort.in_raw_repl (serial r') = VirtualSerialPort.in_raw_repl (serial r).
Proof.
  intros E.
  destruct (@RedirectorFacts._handle_process_exit_true _ _ IS_WINDOWS kind r r' E)
    as (r0 & rb & rc & rd & E0 & Eb & Ec & Ed & ->).
  cbn [serial set_restarting].
  pose proof (RedirectorFacts.has_process_exited_in_raw_repl r) as Hraw0.
  rewrite E0 in Hraw0. cbn [snd] in Hraw0. rewrite Hraw0 in Ed.
  pose proof (do_restart_true_clears_raw _ Ec) as Hc.
  unfold _complete_restart, bind, sleep, ret in Ed.
  destruct (RedirectorFacts._read_banner_spec rc) as (_ & Hpty).
  destruct (_read_banner rc) as [[banner | e] r2]; [| discriminate].
  cbn [snd] in Hpty. apply pty_only_in_raw_repl in Hpty.
  destruct (VirtualSerialPort.in_raw_repl (serial r)).
  - eapply _reenter_raw_repl_sets_raw; exact Ed.
  - destruct (nonempty banner).
    + destruct (RedirectorFacts._safe_send_spec kind banner r2) as (_ & Hs & _).
      rewrite Ed in Hs. cbn [snd] in Hs. now rewrite Hs, Hpty.
    + inversion Ed; subst. now rewrite Hpty.
Qed.

(** The reader flow never raises. *)
Lemma reader_iteration_returns (r : t P) :
  exists continue, fst (reader_iteration IS_WINDOWS kind r) = Ok continue.
Proof.
  unfold reader_iteration, try_except.
  match goal with
  | |- context [match ?body r with _ => _ end] => destruct (body r) as [[c | e] r1]
  end; now eexists.
Qed.

(** (X15) [reader] lets no exception escape, whatever the PTY process,
    the restart callback and the socket do, and whenever its loop ends it
    has cleared [alive]; it ends at once when [alive] is already false. *)
Theorem reader_never_raises_and_clears_alive (fuel : nat) (r : t P) :
  exists ended r',
    reader IS_WINDOWS kind fuel r = (Ok ended, r')
    /\ (ended = Some tt -> alive r' = false)
    /\ (alive r = false -> (0 < fuel)%nat -> ended = Some tt /\ r' = r).
Proof.
  revert r. induction fuel as [| fuel IH]; intros r; cbn [reader].
  - exists None, r. unfold ret. repeat split; try discriminate. lia.
  - unfold bind at 1. unfold gets at 1. destruct (alive r) eqn:Ha.
    + unfold bind at 1.
      destruct (reader_iteration_returns r) as [continue Hc].
      destruct (reader_iteration IS_WINDOWS kind r) as [res r1]. cbn [fst] in Hc. subst res.
      destruct continue.
      * destruct (IH r1) as (ended & r' & E & Hend & _).
        exists ended, r'. repeat split; [exact E | exact Hend | discriminate | discriminate].
      * unfold bind, modify, ret. eexists _, _. repeat split; discriminate.
    + unfold bind, modify, ret. eexists _, _. repeat split.
      destruct r; cbn in *; now subst.
Qed.

End WithPTY.
End RestartFacts.

(** ** The two flows of a session *)

Module FlowFacts.
Import Redirector Statements.

Section WithPTY.

Context {P : Type} `{BasePTYProcess P}.
Variable receive : Writer.recv_outcome -> M (Redirector.t P) (option bytes).




End WithPTY.

(** One turn of the reader over a scripted child that is running. *)
Lemma reader_iteration_scripted (IS_WINDOWS : bool) (kind : variant) (chunk : bytes)
    (script : list (result bytes)) (wo : result Z) (calls : list ScriptedPTY.call)
    (tmo iw : Z) (cb : option (VirtualSerialPort.RestartCallback ScriptedPTY.t))
    (raw rs : bool) (sent : list bytes) :
  reader_iteration IS_WINDOWS kind
    (mk (VirtualSerialPort.mk (ScriptedPTY.mk (Ok chunk :: script) wo None calls)
           tmo iw cb raw [] false)
        (mkSocket sent []) true rs)
  = (Ok true,
     mk (VirtualSerialPort.mk
           (ScriptedPTY.mk script wo None
              (calls ++ [ScriptedPTY.CallIsAlive]
                     ++ [ScriptedPTY.CallRead MP_BRIDGE_READ_BUFFER_SIZE tmo]))
           tmo iw cb
           (if nonempty chunk then raw_repl_after_response chunk raw else raw) [] false)
        (mkSocket (sent ++ (if nonempty chunk then [frame kind chunk] else [])) [])
        true rs).
Proof.
  unfold reader_iteration, try_except. unfold bind at 1.
  rewrite (@RedirectorFacts._handle_process_exit_alive _ _ IS_WINDOWS kind _
             (ScriptedPTY.mk (Ok chunk :: script) wo None (calls ++ [ScriptedPTY.CallIsAlive])))
    by reflexivity.
  unfold bind at 1. unfold on_serial, zoom, VirtualSerialPort.read.
  cbv beta iota delta [serial set_serial VirtualSerialPort.set_pty_process
       VirtualSerialPort._pty_process VirtualSerialPort.timeout VirtualSerialPort.in_waiting
       VirtualSerialPort.restart_callback VirtualSerialPort.in_raw_repl
       VirtualSerialPort.pending_reboot_output VirtualSerialPort.closed
       socket alive _restarting nonempty].
  unfold try_except, bind at 1, VirtualSerialPort.on_pty, zoom.
  cbv beta iota delta [VirtualSerialPort._pty_process pty_read ScriptedPTY.ScriptedPTY_pty
       ScriptedPTY.read ScriptedPTY.reads next_outcome ScriptedPTY.write_outcome
       ScriptedPTY.exit_code ScriptedPTY.calls VirtualSerialPort.set_pty_process
       VirtualSerialPort.timeout VirtualSerialPort.in_waiting
       VirtualSerialPort.restart_callback VirtualSerialPort.in_raw_repl
       VirtualSerialPort.pending_reboot_output VirtualSerialPort.closed].
  rewrite <- app_assoc.
  destruct chunk as [| c chunk].
  - unfold bind, ret, nonempty.
    cbv beta iota delta [serial set_serial socket alive _restarting].
    now rewrite app_nil_r.
  - unfold bind at 1.
    rewrite VirtualSerialPortFacts.update_raw_repl_state_spec.
    unfold ret at 1. unfold bind at 1.
    unfold _send_to_client, write_to_socket, try_except_socket, try_except, zoom, sendall,
      frame, ret, nonempty.
    destruct kind; reflexivity.
Qed.

(** (X17) The reader flow delivers the output of a running child in
    order and complete: for every sequence of chunks that the successive
    PTY reads return, after as many turns of the loop the client has been
    sent exactly the non-empty chunks, in the same order, each framed by
    the variant; the session is still alive and nothing is left pending. *)
Theorem reader_forwards_child_output (IS_WINDOWS : bool) (kind : variant)
    (chunks : list bytes) :
  forall (wo : result Z) (calls : list ScriptedPTY.call) (tmo iw : Z)
         (cb : option (VirtualSerialPort.RestartCallback ScriptedPTY.t))
         (raw rs : bool) (sent : list bytes),
    let r := mk (VirtualSerialPort.mk (ScriptedPTY.mk (map Ok chunks) wo None calls)
                   tmo iw cb raw [] false)
                (mkSocket sent []) true rs in
    exists r',
      reader IS_WINDOWS kind (length chunks) r = (Ok None, r')
      /\ sock_sent (socket r') = sent ++ map (frame kind) (filter nonempty chunks)
      /\ alive r' = true
      /\ VirtualSerialPort.pending_reboot_output (serial r') = []
      /\ ScriptedPTY.reads (VirtualSerialPort._pty_process (serial r')) = [].
Proof.
  induction chunks as [| chunk chunks IH]; intros wo calls tmo iw cb raw rs sent r; subst r.
  - eexists. cbn [length reader]. unfold ret. split; [reflexivity |].
    cbn. now rewrite app_nil_r.
  - cbn [length reader map]. unfold bind at 1. unfold gets at 1. cbn [alive].
    unfold bind at 1. rewrite reader_iteration_scripted.
    destruct (IH wo (calls ++ [ScriptedPTY.CallIsAlive]
                           ++ [ScriptedPTY.CallRead MP_BRIDGE_READ_BUFFER_SIZE tmo])
                 tmo iw cb
                 (if nonempty chunk then raw_repl_after_response chunk raw else raw) rs
                 (sent ++ (if nonempty chunk then [frame kind chunk] else [])))
      as (r' & E & Hsent & Hrest).
    exists r'. split; [exact E |]. split; [| exact Hrest].
    rewrite Hsent, <- app_assoc. f_equal. cbn [filter].
    destruct (nonempty chunk); reflexivity.
Qed.

(** One turn of the writer of the raw variant over a scripted child. *)
Lemma writer_turn_scripted (chunk : bytes) (script : list (result bytes)) (n : Z)
    (code : option Z) (calls : list ScriptedPTY.call) (tmo iw : Z)
    (cb : option (VirtualSerialPort.RestartCallback ScriptedPTY.t))
    (raw rs al : bool) (sock : Socket) :
  chunk <> [] ->
  Writer.writer_turn Writer._receive_from_client (Writer.Recv chunk)
    (mk (VirtualSerialPort.mk (ScriptedPTY.mk script (Ok n) code calls)
           tmo iw cb raw [] false) sock al rs)
  = (Ok true,
     mk (VirtualSerialPort.mk
           (ScriptedPTY.mk script (Ok n) code (calls ++ [ScriptedPTY.CallWrite chunk]))
           tmo iw cb (raw_repl_after_write chunk raw) [] false) sock al rs).
Proof.
  intros Hne. apply nonempty_true_iff in Hne.
  unfold Writer.writer_turn, try_except, Writer._receive_from_client.
  rewrite Hne. unfold bind at 1. unfold ret at 1. rewrite Hne.
  unfold bind, ret, on_serial, zoom, VirtualSerialPort.write.
  cbn [serial VirtualSerialPort.closed].
  unfold raw_repl_after_write.
  destruct (contains CTRL_A chunk); [| destruct (contains CTRL_B chunk)]; reflexivity.
Qed.

(** (X18) The writer flow of the raw port hands the client's bytes to the
    child in order and unchanged: for every sequence of non-empty chunks
    received before the client closes the connection, with the port open
    and no restart in progress, the PTY process is written exactly those
    chunks, one write each, in the order received; then the writer stops
    with [alive] cleared, and nothing was sent to the client. *)
Theorem writer_delivers_client_input (chunks : list bytes) :
  Forall (fun chunk => chunk <> []) chunks ->
  forall (script : list (result bytes)) (n : Z) (code : option Z)
         (calls : list ScriptedPTY.call) (tmo iw : Z)
         (cb : option (VirtualSerialPort.RestartCallback ScriptedPTY.t))
         (raw : bool) (sock : Socket),
    let r := mk (VirtualSerialPort.mk (ScriptedPTY.mk script (Ok n) code calls)
                   tmo iw cb raw [] false) sock true false in
    exists r',
      Writer.writer Writer._receive_from_client
        (map Writer.Recv chunks ++ [Writer.Recv []]) r
      = (Ok (Writer.Stopped, []), r')
      /\ ScriptedPTY.calls (VirtualSerialPort._pty_process (serial r'))
         = calls ++ map ScriptedPTY.CallWrite chunks
      /\ alive r' = false
      /\ socket r' = sock.
Proof.
  induction 1 as [| chunk chunks Hne _ IH]; intros script n code calls tmo iw cb raw sock r;
    subst r.
  - eexists. cbn [map app Writer.writer alive _restarting negb].
    split; [reflexivity |]. cbn. now rewrite app_nil_r.
  - cbn [map app Writer.writer alive _restarting negb].
    rewrite (writer_turn_scripted script n code calls tmo iw cb raw false true sock Hne).
    destruct (IH script n code (calls ++ [ScriptedPTY.CallWrite chunk]) tmo iw cb
                 (raw_repl_after_write chunk raw) sock) as (r' & E & Hcalls & Hrest).
    exists r'. split; [exact E |]. split; [| exact Hrest].
    rewrite Hcalls, <- app_assoc. reflexivity.
Qed.

End FlowFacts.

(** ** The accept loop and its guard threads *)

Module AcceptLoopFacts.
Import Server Statements Accounting.














End AcceptLoopFacts.

(** ** A new connection *)

Module DispatcherFacts.
Import VirtualSerialPort.
Section WithPTY.

Context {P : Type} `{BasePTYProcess P}.

(** (X21) A port that an earlier error has closed stays closed for the
    next client as long as the child is running: the accept loop restarts
    nothing, the reset clears only the raw REPL flag and the pending
    bytes, and then every read gives no bytes and every write reports 0
    bytes written, without touching the PTY process. *)
Theorem closed_port_stays_closed_for_next_client (spawn : result P) (self : t P) (p' : P) :
  pty_is_alive (_pty_process self) = (Ok true, p') ->
  closed self = true ->
  exists self',
    Dispatcher.prepare_virtual_serial spawn self = (Ok tt, self')
    /\ self' = mk p' (timeout self) (in_waiting self) (restart_callback self) false [] true
    /\ (forall size, read size self' = (Ok [], self'))
    /\ (forall data, write data self' = (Ok 0, self')).
Proof.
  intros Halive Hclosed.
  destruct self as [pty tmo iw cb raw pending cl]. cbn [_pty_process closed] in *. subst cl.
  eexists. split; [| split; [reflexivity |]].
  - unfold Dispatcher.prepare_virtual_serial, has_process_exited, on_pty, zoom.
    unfold bind at 1. unfold bind at 1. cbn [_pty_process]. rewrite Halive.
    unfold ret at 1. cbn [negb]. unfold bind, ret, reset_for_new_connection, modify.
    reflexivity.
  - split; intros; reflexivity.
Qed.


End WithPTY.
End DispatcherFacts.

(** ** Line settings *)

Module SettingsFacts.
Import SerialSettings.

(** (X23) The settings dictionary round-trips: applying what
    [get_settings] returned for a port restores all seven settings,
    whatever the port holds in between; applying a dictionary changes the
    settings it names and keeps the others; and keys that are no settings
    are ignored. *)
Theorem settings_round_trip (saved current : t) (settings : dict) (key : string) :
  In key setting_keys ->
  apply_settings (get_settings saved) current = saved
  /\ lookup (get_settings (apply_settings settings current)) key
     = match lookup settings key with
       | Some v => Some v
       | None => lookup (get_settings current) key
       end
  /\ (forall other v,
        ~ In other setting_keys ->
        apply_settings ((other, v) :: settings) current = apply_settings settings current).
Proof.
  intros Hkey. split; [now destruct saved |]. split.
  - cbn [setting_keys In] in Hkey.
    repeat (destruct Hkey as [<- | Hkey];
            [cbn [get_settings apply_settings lookup String.eqb Ascii.eqb Bool.eqb
                  baudrate bytesize parity stopbits rtscts dsrdtr xonxoff];
             unfold dict_get; now destruct (lookup settings _) |]).
    contradiction.
  - intros other v Hother. unfold apply_settings, dict_get. cbn [lookup].
    assert (Hneq : forall k, In k setting_keys -> String.eqb other k = false).
    { intros k Hk. apply String.eqb_neq. intros ->. exact (Hother Hk). }
    rewrite !Hneq; [reflexivity | ..]; cbn [setting_keys In]; auto 10.
Qed.

End SettingsFacts.

(** ** Command line *)

Module CommandLineFacts.
Import CommandLine.

(** (X24) Every count of [-v] gives a logging level, and more flags
    never give less output: no count raises IndexError, the level is
    [WARNING] without the flag, drops by ten per flag and stays at
    [NOTSET] from three flags on. *)
Theorem logging_level_of_verbosity (verbosity : Z) :
  0 <= verbosity ->
  logging_level verbosity = Some (Z.max NOTSET (WARNING - 10 * verbosity)).
Proof.
  intros Hv. unfold logging_level, tuple_index, WARNING, INFO, DEBUG, NOTSET.
  assert (Hmin : (0 <=? Z.min verbosity 3) = true) by (apply Z.leb_le; lia).
  rewrite Hmin.
  destruct (Z.eq_dec verbosity 0) as [-> | H0]; [reflexivity |].
  destruct (Z.eq_dec verbosity 1) as [-> | H1]; [reflexivity |].
  destruct (Z.eq_dec verbosity 2) as [-> | H2]; [reflexivity |].
  replace (Z.min verbosity 3) with 3 by lia.
  replace (Z.max 0 (30 - 10 * verbosity)) with 0 by lia. reflexivity.
Qed.

Section Split.

Variable isspace : Ascii.ascii -> bool.

Lemma forallb_rev {A} (f : A -> bool) (l : list A) : forallb f (rev l) = forallb f l.
Proof.
  induction l as [| x l IH]; [reflexivity |].
  cbn [rev forallb]. rewrite forallb_app, IH. cbn [forallb]. rewrite andb_true_r.
  apply andb_comm.
Qed.

Lemma filter_all {A} (f : A -> bool) (l : list A) : forallb f l = true -> filter f l = l.
Proof.
  induction l as [| x l IH]; [reflexivity |].
  cbn [forallb filter]. intros Hx. apply andb_prop in Hx as [Hx Hl].
  now rewrite Hx, IH.
Qed.

Lemma split_from_spec (s word : str) :
  forallb (fun c => negb (isspace c)) word = true ->
  Forall (word_ok isspace) (split_from isspace word s)
  /\ concat (split_from isspace word s)
     = rev word ++ filter (fun c => negb (isspace c)) s.
Proof.
  revert word. induction s as [| c s IH]; intros word Hword.
  - cbn [split_from filter]. destruct word as [| x word].
    + split; [constructor | reflexivity].
    + split.
      * constructor; [| constructor]. split.
        -- cbn [rev]. intros Hnil. apply app_eq_nil in Hnil as [_ Hnil]. discriminate.
        -- now rewrite forallb_rev.
      * cbn [concat]. now rewrite !app_nil_r.
  - cbn [split_from filter]. destruct (isspace c) eqn:Hc; cbn [negb].
    + destruct (IH [] eq_refl) as [Hok Hcat]. cbn [rev app] in Hcat.
      destruct word as [| x word].
      * split; [exact Hok | exact Hcat].
      * split.
        -- constructor; [| exact Hok]. split.
           ++ cbn [rev]. intros Hnil. apply app_eq_nil in Hnil as [_ Hnil]. discriminate.
           ++ now rewrite forallb_rev.
        -- cbn [concat]. now rewrite Hcat.
    + assert (Hword' : forallb (fun c => negb (isspace c)) (c :: word) = true)
        by (cbn [forallb]; now rewrite Hc, Hword).
      destruct (IH (c :: word) Hword') as [Hok Hcat].
      split; [exact Hok |]. rewrite Hcat. cbn [rev]. now rewrite <- app_assoc.
Qed.

Lemma fold_left_options (opts : list str) :
  forall cmd,
    fold_left (fun cmd opt => cmd ++ [lit "-X"; opt]) opts cmd
    = cmd ++ flat_map (fun opt => [lit "-X"; opt]) opts.
Proof.
  induction opts as [| opt opts IH]; intros cmd; cbn [fold_left flat_map].
  - now rewrite app_nil_r.
  - rewrite IH, <- app_assoc. reflexivity.
Qed.

Lemma length_options (opts : list str) :
  length (flat_map (fun opt => [lit "-X"; opt]) opts) = (2 * length opts)%nat.
Proof.
  induction opts as [| opt opts IH]; [reflexivity |].
  cbn [flat_map length app]. rewrite IH. lia.
Qed.

(** (X25) The command that starts MicroPython: the executable path
    first and as one argument, then one [-v] per count of [--mp-verbose],
    one [-O] per count of [-O], then every [-X] option in the order given,
    each as one argument after its own [-X], then the words of
    [--micropython-args].  Only that last string is split: its words are
    non-empty, contain no whitespace, and together are the string without
    its whitespace. *)
Theorem command_line_shape (args : Namespace) :
  0 <= mp_verbose args ->
  0 <= mp_optimize args ->
  exists words,
    build_micropython_command isspace args
    = MICROPYTHON_PATH args
        :: repeat (lit "-v") (Z.to_nat (mp_verbose args))
        ++ repeat (lit "-O") (Z.to_nat (mp_optimize args))
        ++ flat_map (fun opt => [lit "-X"; opt]) (mp_impl_opts args)
        ++ words
    /\ Forall (word_ok isspace) words
    /\ concat words = filter (fun c => negb (isspace c)) (micropython_args args)
    /\ Z.of_nat (length (build_micropython_command isspace args))
       = 1 + mp_verbose args + mp_optimize args
         + 2 * Z.of_nat (length (mp_impl_opts args)) + Z.of_nat (length words).
Proof.
  intros Hv Ho.
  destruct (split_from_spec (micropython_args args) [] eq_refl) as [Hok Hcat].
  cbn [rev app] in Hcat.
  exists (split isspace (micropython_args args)).
  assert (Hcmd : build_micropython_command isspace args
                 = MICROPYTHON_PATH args
                     :: repeat (lit "-v") (Z.to_nat (mp_verbose args))
                     ++ repeat (lit "-O") (Z.to_nat (mp_optimize args))
                     ++ flat_map (fun opt => [lit "-X"; opt]) (mp_impl_opts args)
                     ++ split isspace (micropython_args args)).
  { unfold build_micropython_command, times. rewrite fold_left_options.
    destruct (micropython_args args) as [| c rest] eqn:Hargs.
    - unfold split. cbn [split_from]. rewrite !app_nil_r, <- !app_assoc. reflexivity.
    - rewrite <- !app_assoc. reflexivity. }
  split; [exact Hcmd |]. split; [exact Hok |]. split; [exact Hcat |].
  rewrite Hcmd. cbn [length]. rewrite !length_app, !repeat_length.
  rewrite length_options. lia.
Qed.

End Split.

End CommandLineFacts.

(** ** The further properties on concrete runs *)

Module CaseFacts.
Import Scenarios Cases Statements.

Lemma filter_deletes_complete_csi_witness :
  Windows._filter_escape_sequences
    (coloured_pre ++ [ESC; x5b] ++ coloured_params ++ coloured_letter :: coloured_rest)
  = coloured_pre ++ Windows._filter_escape_sequences coloured_rest.
Proof.
  assert (Hpre : ~ In ESC coloured_pre) by (cbv; intuition discriminate).
  exact (FilterFacts.filter_deletes_complete_csi coloured_pre coloured_params
           coloured_letter coloured_rest Hpre eq_refl eq_refl).
Defined.

Lemma windows_read_is_transparent_on_plain_output_witness :
  fst (WindowsPTY.read 4096 100 (WindowsPTY.mkWindowsPTYProcess false winpty_plain))
  = Ok (b "hi").
Proof.
  assert (Hne : b "hi" <> []) by discriminate.
  assert (Hesc : ~ In ESC (b "hi")) by (cbv; intuition discriminate).
  exact (proj1 (@FilterFacts.windows_read_is_transparent_on_plain_output
                  winpty_plain (b "hi") [] 4096 100 eq_refl Hne)
           Hesc eq_refl).
Defined.

Lemma unix_pty_error_closes_witness :
  fst (UnixPTY.read 4096 100 unix_failing) = Ok []
  /\ UnixPTY._closed (snd (UnixPTY.read 4096 100 unix_failing)) = true.
Proof.
  exact (proj1 (@ClosedPTYFacts.unix_pty_error_closes unix_failing 4096 100 (b "x") eq_refl)
           [] eq_refl).
Defined.

Lemma unix_close_skips_pty_closed_by_error_witness :
  UnixPTY.close (snd (UnixPTY.read 4096 100 unix_failing))
  = (Ok tt, snd (UnixPTY.read 4096 100 unix_failing))
  /\ UnixPTY.is_alive (snd (UnixPTY.read 4096 100 unix_failing))
     = (Ok true, snd (UnixPTY.read 4096 100 unix_failing)).
Proof.
  exact (proj2 (@ClosedPTYFacts.unix_close_skips_pty_closed_by_error unix_failing 4096 100
                  eq_refl)
           [] eq_refl eq_refl).
Defined.

Lemma pty_read_error_closes_port_witness :
  fst (VirtualSerialPort.read 4096 port_read_raises) = Ok []
  /\ VirtualSerialPort.closed (snd (VirtualSerialPort.read 4096 port_read_raises)) = true.
Proof.
  pose proof (@PortFacts.pty_read_error_closes_port _ _ port_read_raises 4096 OSError _
                eq_refl eq_refl eq_refl) as (Hres & Hclosed & _).
  split; [exact Hres | exact Hclosed].
Defined.

Lemma do_restart_reopens_port_witness :
  VirtualSerialPort.closed (snd (VirtualSerialPort.do_restart port_closed_exited)) = false
  /\ VirtualSerialPort._pty_process (snd (VirtualSerialPort.do_restart port_closed_exited))
     = fresh_child.
Proof.
  pose proof (@PortFacts.do_restart_reopens_port _ _ port_closed_exited _ fresh_child 4096
                eq_refl eq_refl) as (_ & Hclosed & _ & _ & _ & Hpty & _).
  split; [exact Hclosed | exact Hpty].
Defined.

Lemma probe_then_read_returns_probed_bytes_first_witness :
  fst (VirtualSerialPort.read 4096
         (snd (VirtualSerialPort.update_in_waiting
                 (VirtualSerialPort.set_pending_reboot_output (b "abc") port_two_bytes))))
  = Ok (firstn (Z.to_nat 4096) (b "x" ++ b "abc")).
Proof.
  assert (Hne : b "x" <> []) by discriminate.
  assert (Hn : 0 < 4096) by lia.
  pose proof (@PortFacts.probe_then_read_returns_probed_bytes_first _ _
                (VirtualSerialPort.set_pending_reboot_output (b "abc") port_two_bytes)
                (b "x") _ 4096 eq_refl eq_refl Hne Hn) as (_ & _ & _ & _ & Hread & _).
  exact Hread.
Defined.

Lemma two_probes_queue_later_bytes_first_witness :
  VirtualSerialPort.pending_reboot_output
    (snd (VirtualSerialPort.update_in_waiting
            (snd (VirtualSerialPort.update_in_waiting port_two_bytes))))
  = b "y" ++ b "x" ++ [].
Proof.
  assert (H1 : b "x" <> []) by discriminate.
  assert (H2 : b "y" <> []) by discriminate.
  exact (@PortFacts.two_probes_queue_later_bytes_first _ _ port_two_bytes (b "x") (b "y")
           _ _ eq_refl eq_refl eq_refl H1 H2).
Defined.

Lemma pending_is_drained_in_order_witness :
  fst (VirtualSerialPort.read 1 port_pending) = Ok (firstn (Z.to_nat 1) (b "abc"))
  /\ fst (VirtualSerialPort.read 1 (snd (VirtualSerialPort.read 1 port_pending)))
     = Ok (firstn (Z.to_nat 1) (skipn (Z.to_nat 1) (b "abc"))).
Proof.
  assert (Hn : 0 < 1) by lia.
  assert (Hlen : (Z.to_nat 1 < length (VirtualSerialPort.pending_reboot_output port_pending))%nat)
    by (cbv; lia).
  pose proof (@PortFacts.pending_is_drained_in_order _ _ port_pending 1 1 Hn Hn Hlen)
    as (Hfirst & Hsecond & _).
  split; [exact Hfirst | exact Hsecond].
Defined.

Lemma fresh_read_detection_prefers_raw_prompt_witness :
  VirtualSerialPort.in_raw_repl (snd (VirtualSerialPort.read 4096 port_prompt)) = true.
Proof.
  pose proof (@PortFacts.fresh_read_detection_prefers_raw_prompt _ _ port_prompt 4096 _ _
                eq_refl eq_refl eq_refl) as (Hraw & _).
  apply Hraw. exists [], ([CR; LF] ++ b ">"). reflexivity.
Defined.

Lemma handle_process_exit_always_unparks_witness :
  exists restarted r',
    Redirector._handle_process_exit false Redirector.RawSocket (raw_session fresh_child)
    = (Ok restarted, r')
    /\ Redirector._restarting r' = false.
Proof.
  assert (Hexit : Redirector.on_serial VirtualSerialPort.has_process_exited
                    (raw_session fresh_child)
                  = (Ok true,
                     snd (Redirector.on_serial VirtualSerialPort.has_process_exited
                            (raw_session fresh_child))))
    by (vm_compute; reflexivity).
  destruct (@RestartFacts.handle_process_exit_always_unparks _ _ false Redirector.RawSocket
              _ _ true Hexit)
    as (restarted & r' & E & _ & Hunpark).
  exists restarted, r'. split; [exact E | exact (Hunpark eq_refl)].
Defined.


Lemma soft_reboot_preserves_raw_repl_mode_witness :
  let r := raw_session fresh_child in
  let r' := snd (Redirector._handle_process_exit false Redirector.RawSocket r) in
  Redirector._handle_process_exit false Redirector.RawSocket r = (Ok true, r')
  /\ VirtualSerialPort.in_raw_repl (Redirector.serial r') = true.
Proof.
  intros r r'.
  assert (E : Redirector._handle_process_exit false Redirector.RawSocket r = (Ok true, r'))
    by reflexivity.
  split; [exact E |].
  exact (@RestartFacts.soft_reboot_preserves_raw_repl_mode _ _ false Redirector.RawSocket
           r r' E).
Defined.

Lemma writer_delivers_client_input_witness :
  exists r',
    Writer.writer Writer._receive_from_client (map Writer.Recv typed ++ [Writer.Recv []])
      (session (port silent silent))
    = (Ok (Writer.Stopped, []), r')
    /\ ScriptedPTY.calls (VirtualSerialPort._pty_process (Redirector.serial r'))
       = [] ++ map ScriptedPTY.CallWrite typed.
Proof.
  assert (Htyped : Forall (fun chunk : bytes => chunk <> []) typed)
    by (repeat constructor; discriminate).
  destruct (FlowFacts.writer_delivers_client_input Htyped [] 1 None [] 100 0
              (Some (Main.process_manager_restart (Ok silent))) false (mkSocket [] []))
    as (r' & E & Hcalls & _).
  exists r'. split; [exact E | exact Hcalls].
Defined.



Lemma closed_port_stays_closed_for_next_client_witness :
  exists self',
    Dispatcher.prepare_virtual_serial (Ok silent) port_closed_running = (Ok tt, self')
    /\ VirtualSerialPort.closed self' = true
    /\ VirtualSerialPort.read 4096 self' = (Ok [], self').
Proof.
  assert (Halive : pty_is_alive (VirtualSerialPort._pty_process port_closed_running)
                   = (Ok true,
                      snd (pty_is_alive (VirtualSerialPort._pty_process port_closed_running))))
    by (vm_compute; reflexivity).
  destruct (@DispatcherFacts.closed_port_stays_closed_for_next_client _ _ (Ok silent)
              port_closed_running _ Halive eq_refl)
    as (self' & E & Hself & Hread & _).
  exists self'. split; [exact E |]. split; [now rewrite Hself | exact (Hread 4096)].
Defined.


Lemma settings_round_trip_witness :
  SerialSettings.apply_settings
    (SerialSettings.get_settings SerialSettings.__init__)
    (SerialSettings.apply_settings [("parity"%string, SerialSettings.PyStr "E")]
       SerialSettings.__init__)
  = SerialSettings.__init__.
Proof.
  assert (Hkey : In "parity"%string SerialSettings.setting_keys)
    by (cbn; auto).
  exact (proj1 (@SettingsFacts.settings_round_trip SerialSettings.__init__
                  (SerialSettings.apply_settings [("parity"%string, SerialSettings.PyStr "E")]
                     SerialSettings.__init__)
                  [] "parity"%string Hkey)).
Defined.

Lemma logging_level_of_verbosity_witness :
  CommandLine.logging_level 5 = Some CommandLine.NOTSET.
Proof.
  assert (Hv : 0 <= 5) by lia.
  exact (CommandLineFacts.logging_level_of_verbosity Hv).
Defined.

Lemma command_line_shape_witness :
  exists words,
    CommandLine.build_micropython_command ascii_isspace namespace
    = CommandLine.MICROPYTHON_PATH namespace
        :: repeat (CommandLine.lit "-v") (Z.to_nat 1)
        ++ repeat (CommandLine.lit "-O") (Z.to_nat 2)
        ++ flat_map (fun opt => [CommandLine.lit "-X"; opt])
             [CommandLine.lit "heapsize=4M"]
        ++ words
    /\ Forall (CommandLine.word_ok ascii_isspace) words.
Proof.
  assert (Hv : 0 <= CommandLine.mp_verbose namespace) by (cbn; lia).
  assert (Ho : 0 <= CommandLine.mp_optimize namespace) by (cbn; lia).
  destruct (@CommandLineFacts.command_line_shape ascii_isspace namespace Hv Ho)
    as (words & Hcmd & Hok & _).
  exists words. split; [exact Hcmd | exact Hok].
Defined.

End CaseFacts.
